(** * LS-8 emulator ([cpu.py]): shallow embedding and verified properties

    The Python class [CPU] keeps its whole machine state in fields of one
    object and signals every abnormal stop with an exception.  It is modelled
    here as a state-and-exception monad over a record of those fields.
    Python integers are unbounded, hence [Z]; Python lists are [list Z] with
    Python's indexing rule (negative indices count from the end, anything
    else out of range raises [IndexError]). *)

From Stdlib Require Import ZArith String Ascii DecimalString Lia Bool.
From stdpp Require Import base list.

Local Open Scope Z_scope.

(** ** Python lists indexed by an integer *)

(** Position denoted by index [i] in a list of length [len], if any. *)
Definition py_index (len i : Z) : option nat :=
  if (0 <=? i) && (i <? len) then Some (Z.to_nat i)
  else if (- len <=? i) && (i <? 0) then Some (Z.to_nat (len + i))
  else None.

(** [l[i]] *)
Definition py_get (l : list Z) (i : Z) : option Z :=
  match py_index (Z.of_nat (length l)) i with
  | Some n => l !! n
  | None => None
  end.

(** [l[i] = v] *)
Definition py_set (l : list Z) (i v : Z) : option (list Z) :=
  match py_index (Z.of_nat (length l)) i with
  | Some n => Some (<[n := v]> l)
  | None => None
  end.

(** [str(v)] for an integer, as [print] writes it: the decimal digits, with
    a minus sign for a negative value.  (CPython from 3.11 on refuses the
    conversion of an integer of more than 4300 digits.) *)
Definition py_str (v : Z) : string := NilZero.string_of_int (Z.to_int v).

(** ** The opcode table [instructions] *)

Module instructions.
Definition UNKNOWN : Z := 0x00.  (* '???': 0b00000000, never registered *)
Definition HLT  : Z := 0x01.  (* 0b00000001 *)
Definition LDI  : Z := 0x02.  (* 0b00000010 *)
Definition PUSH : Z := 0x05.  (* 0b00000101 *)
Definition POP  : Z := 0x06.  (* 0b00000110 *)
Definition PRN  : Z := 0x07.  (* 0b00000111 *)
Definition CALL : Z := 0x10.  (* 0b00010000 *)
Definition RET  : Z := 0x11.  (* 0b00010001 *)
Definition JMP  : Z := 0x14.  (* 0b00010100 *)
Definition JEQ  : Z := 0x15.  (* 0b00010101 *)
Definition JNE  : Z := 0x16.  (* 0b00010110 *)
Definition CMP  : Z := 0x27.  (* 0b00100111 *)
Definition ADD  : Z := 0x20.  (* 0b00100000 *)
Definition MUL  : Z := 0x22.  (* 0b00100010 *)
End instructions.

(** ** Machine state *)

Record CPU := mkCPU {
  ram : list Z;
  registers : list Z;
  pc : Z;
  ir : Z;
  mar : Z;
  mdr : Z;
  fl : Z;
  stdout : list string      (* lines written by [print], oldest first *)
}.

Definition set_ram (s : CPU) (v : list Z) : CPU :=
  mkCPU v (registers s) (pc s) (ir s) (mar s) (mdr s) (fl s) (stdout s).
Definition set_registers (s : CPU) (v : list Z) : CPU :=
  mkCPU (ram s) v (pc s) (ir s) (mar s) (mdr s) (fl s) (stdout s).
Definition set_pc (s : CPU) (v : Z) : CPU :=
  mkCPU (ram s) (registers s) v (ir s) (mar s) (mdr s) (fl s) (stdout s).
Definition set_ir (s : CPU) (v : Z) : CPU :=
  mkCPU (ram s) (registers s) (pc s) v (mar s) (mdr s) (fl s) (stdout s).
Definition set_fl (s : CPU) (v : Z) : CPU :=
  mkCPU (ram s) (registers s) (pc s) (ir s) (mar s) (mdr s) v (stdout s).
Definition set_stdout (s : CPU) (v : list string) : CPU :=
  mkCPU (ram s) (registers s) (pc s) (ir s) (mar s) (mdr s) (fl s) v.

(** ** Exceptions and the machine monad *)

Inductive exn :=
| IndexError                 (* list index out of range *)
| KeyError (key : Z)         (* [branch_table] has no such opcode *)
| SystemExit                 (* [sys.exit()] *)
| Exception (msg : string).

Inductive result (A : Type) :=
| Ok (a : A)
| Raise (e : exn).
Arguments Ok {A} a.
Arguments Raise {A} e.

(** A method of [CPU]: it runs on the object's state and either returns or
    raises, and in both cases leaves the (possibly mutated) object behind. *)
Definition M (A : Type) : Type := CPU -> result A * CPU.

Definition pure {A} (a : A) : M A := fun s => (Ok a, s).
Definition raise {A} (e : exn) : M A := fun s => (Raise e, s).
Definition bind {A B} (m : M A) (k : A -> M B) : M B :=
  fun s => match m s with
           | (Ok a, s') => k a s'
           | (Raise e, s') => (Raise e, s')
           end.

Notation "'let*' x ':=' c 'in' k" := (bind c (fun x => k))
  (at level 10, x name, c at level 100, k at level 200).

Definition gets {A} (f : CPU -> A) : M A := fun s => (Ok (f s), s).
Definition modify (f : CPU -> CPU) : M unit := fun s => (Ok tt, f s).

(** Subscripting a list held in the object. *)
Definition subscript {A} (o : option A) : M A :=
  match o with
  | Some a => pure a
  | None => raise IndexError
  end.

(** ** Memory and register primitives *)

Definition ram_read (a : Z) : M Z :=
  let* m := gets ram in subscript (py_get m a).

Definition ram_write (a v : Z) : M unit :=
  let* m := gets ram in
  let* m' := subscript (py_set m a v) in
  modify (fun s => set_ram s m').

(** [self.registers[i]] and [self.registers[i] = v] *)
Definition reg_read (i : Z) : M Z :=
  let* r := gets registers in subscript (py_get r i).

Definition reg_write (i v : Z) : M unit :=
  let* r := gets registers in
  let* r' := subscript (py_set r i v) in
  modify (fun s => set_registers s r').

(** The [sp] property: register 7. *)
Definition get_sp : M Z := reg_read 7.
Definition put_sp (v : Z) : M unit := reg_write 7 v.

(** ** ALU *)

Definition alu (op : string) (reg_a reg_b : Z) : M unit :=
  if String.eqb op "ADD" then
    let* a := reg_read reg_a in
    let* b := reg_read reg_b in
    reg_write reg_a (a + b)
  else if String.eqb op "CMP" then
    let* a := reg_read reg_a in
    let* b := reg_read reg_b in
    let* _ := modify (fun s =>
                if a =? b then set_fl s (Z.lor (fl s) 0x01)
                else set_fl s (Z.land (fl s) (Z.lnot 0x01))) in
    let* a := reg_read reg_a in
    let* b := reg_read reg_b in
    let* _ := modify (fun s =>
                if a >? b then set_fl s (Z.lor (fl s) 0x02)
                else set_fl s (Z.land (fl s) (Z.lnot 0x02))) in
    let* a := reg_read reg_a in
    let* b := reg_read reg_b in
    modify (fun s =>
      if a <? b then set_fl s (Z.lor (fl s) 0x04)
      else set_fl s (Z.land (fl s) (Z.lnot 0x04)))
  else raise (Exception "Unsupported ALU operation").

(** ** Instruction handlers *)

Definition hlt : M unit := raise SystemExit.

(** The right-hand side is evaluated before the subscript of the target. *)
Definition ldi : M unit :=
  let* p := gets pc in
  let* v := ram_read (p + 2) in
  let* p := gets pc in
  let* r := ram_read (p + 1) in
  reg_write (Z.land r 0x07) v.

Definition push : M unit :=
  let* sp := get_sp in
  let* _ := put_sp (sp - 1) in
  let* sp := get_sp in
  let* _ := put_sp (Z.land sp 0xFF) in
  let* p := gets pc in
  let* reg_num := ram_read (p + 1) in
  let* value := reg_read reg_num in
  let* address_to_push_to := get_sp in
  ram_write address_to_push_to value.

Definition pop : M unit :=
  let* address_to_pop_from := get_sp in
  let* value := ram_read address_to_pop_from in
  let* p := gets pc in
  let* reg_num := ram_read (p + 1) in
  let* _ := reg_write reg_num value in
  let* sp := get_sp in
  put_sp (sp + 1).

Definition prn : M unit :=
  let* p := gets pc in
  let* r := ram_read (p + 1) in
  let* v := reg_read (Z.land r 0x07) in
  modify (fun s => set_stdout s (stdout s ++ [py_str v])).

Definition call : M unit :=
  let* p := gets pc in
  let return_addr := p + 2 in
  let* sp := get_sp in
  let* _ := put_sp (sp - 1) in
  let* address_to_push_to := get_sp in
  let* _ := ram_write address_to_push_to return_addr in
  let* p := gets pc in
  let* reg_num := ram_read (p + 1) in
  let* subroutine_addr := reg_read reg_num in
  modify (fun s => set_pc s subroutine_addr).

Definition ret : M unit :=
  let* address_to_pop_from := get_sp in
  let* return_addr := ram_read address_to_pop_from in
  let* sp := get_sp in
  let* _ := put_sp (sp + 1) in
  modify (fun s => set_pc s return_addr).

Definition jmp : M unit :=
  let* p := gets pc in
  let* reg_num := ram_read (p + 1) in
  let* stored_addr := reg_read reg_num in
  modify (fun s => set_pc s stored_addr).

(** [self.fl & 0x01 == True]: [&] binds tighter than [==], and [True == 1]. *)
Definition jeq_taken (s : CPU) : bool := Z.land (fl s) 0x01 =? 1.
(** [self.fl & 0x01 == False], with [False == 0]. *)
Definition jne_taken (s : CPU) : bool := Z.land (fl s) 0x01 =? 0.

Definition jeq : M unit :=
  let* taken := gets jeq_taken in
  if taken then
    let* p := gets pc in
    let* reg_num := ram_read (p + 1) in
    let* stored_addr := reg_read reg_num in
    modify (fun s => set_pc s stored_addr)
  else pure tt.

Definition jne : M unit :=
  let* taken := gets jne_taken in
  if taken then
    let* p := gets pc in
    let* reg_num := ram_read (p + 1) in
    let* stored_addr := reg_read reg_num in
    modify (fun s => set_pc s stored_addr)
  else pure tt.

Definition cmp : M unit :=
  let* p := gets pc in
  let* reg_a := ram_read (p + 1) in
  let* p := gets pc in
  let* reg_b := ram_read (p + 2) in
  alu "CMP" reg_a reg_b.

Definition add : M unit :=
  let* p := gets pc in
  let* reg_a := ram_read (p + 1) in
  let* p := gets pc in
  let* reg_b := ram_read (p + 2) in
  alu "ADD" reg_a reg_b.

(** [self.r0 = self.r0 * self.r1] *)
Definition mul : M unit :=
  let* r0 := reg_read 0 in
  let* r1 := reg_read 1 in
  reg_write 0 (r0 * r1).

(** ** Dispatch *)

(** The dictionary built in [__init__], in insertion order. *)
Definition branch_table : list (Z * M unit) :=
  [ (instructions.HLT,  hlt);
    (instructions.LDI,  ldi);
    (instructions.PUSH, push);
    (instructions.POP,  pop);
    (instructions.PRN,  prn);
    (instructions.CALL, call);
    (instructions.RET,  ret);
    (instructions.JMP,  jmp);
    (instructions.JEQ,  jeq);
    (instructions.JNE,  jne);
    (instructions.CMP,  cmp);
    (instructions.ADD,  add);
    (instructions.MUL,  mul) ].

Fixpoint dict_get {V} (d : list (Z * V)) (k : Z) : option V :=
  match d with
  | [] => None
  | (k', v) :: d' => if k' =? k then Some v else dict_get d' k
  end.

(** [self.branch_table[k]] *)
Definition handler_for (k : Z) : M (M unit) :=
  match dict_get branch_table k with
  | Some h => pure h
  | None => raise (KeyError k)
  end.

(** The end of the loop body in [run]: the program counter moves past the
    instruction unless the opcode is CALL, RET or JMP. *)
Definition advance : M unit :=
  let* i := gets ir in
  if negb (i =? instructions.CALL) && negb (i =? instructions.RET)
     && negb (i =? instructions.JMP)
  then
    let* p := gets pc in
    let* p' := gets pc in
    let* b := ram_read p' in
    modify (fun s => set_pc s (p + Z.shiftr b 6 + 1))
  else pure tt.

(** One iteration of the [while True] loop of [run]. *)
Definition step : M unit :=
  let* p := gets pc in
  let* b := ram_read p in
  let* _ := modify (fun s => set_ir s (Z.land b 0x3F)) in
  let* i := gets ir in
  let* h := handler_for i in
  let* _ := h in
  advance.

(** [run]: the loop only ends by an exception.  [run n] performs at most [n]
    iterations; the answer [Ok tt] means that the loop is still going after
    [n] of them. *)
Fixpoint run (fuel : nat) : M unit :=
  match fuel with
  | O => pure tt
  | S n => let* _ := step in run n
  end.

(** ** Construction and program loading *)

(** [__init__] *)
Definition init : CPU :=
  let s := mkCPU (replicate 0xFF%nat 0) (replicate 0x08%nat 0) 0 0 0 0 0 [] in
  set_registers s (<[7%nat := 0xF4]> (registers s)).

(** The final loop of [load]: the program bytes go to addresses 0, 1, ... *)
Fixpoint load_from (program : list Z) (address : Z) : M unit :=
  match program with
  | [] => pure tt
  | instruction :: rest =>
      let* _ := ram_write address instruction in
      load_from rest (address + 1)
  end.

(** A freshly constructed machine with [program] loaded. *)
Definition boot (program : list Z) : result unit * CPU :=
  load_from program 0 init.

(** ** Facts about Python indexing *)

Section PyList.
Implicit Types (l : list Z) (i j v : Z).

Lemma py_index_lt len i n : py_index len i = Some n -> (Z.of_nat n < len).
Proof.
  unfold py_index.
  destruct ((0 <=? i) && (i <? len)) eqn:E1.
  - intros [= <-]. apply andb_true_iff in E1 as [?%Z.leb_le ?%Z.ltb_lt]. lia.
  - destruct ((- len <=? i) && (i <? 0)) eqn:E2; [|discriminate].
    intros [= <-]. apply andb_true_iff in E2 as [?%Z.leb_le ?%Z.ltb_lt]. lia.
Qed.

Lemma py_index_nonneg len i : 0 <= i < len -> py_index len i = Some (Z.to_nat i).
Proof.
  intros [H1 H2]. unfold py_index.
  apply Z.leb_le in H1. apply Z.ltb_lt in H2. by rewrite H1, H2.
Qed.

Lemma py_index_high len i : 0 <= len <= i -> py_index len i = None.
Proof.
  intros [H1 H2]. unfold py_index.
  replace (i <? len) with false by (symmetry; apply Z.ltb_ge; lia).
  replace (i <? 0) with false by (symmetry; apply Z.ltb_ge; lia).
  by rewrite !andb_false_r.
Qed.

Lemma py_get_nonneg l i : 0 <= i < Z.of_nat (length l) -> py_get l i = l !! Z.to_nat i.
Proof. intros H. unfold py_get. by rewrite py_index_nonneg. Qed.

Lemma py_set_nonneg l i v :
  0 <= i < Z.of_nat (length l) -> py_set l i v = Some (<[Z.to_nat i := v]> l).
Proof. intros H. unfold py_set. by rewrite py_index_nonneg. Qed.

Lemma py_get_high l i : Z.of_nat (length l) <= i -> py_get l i = None.
Proof. intros H. unfold py_get. rewrite py_index_high; [done | lia]. Qed.

Lemma py_set_high l i v : Z.of_nat (length l) <= i -> py_set l i v = None.
Proof. intros H. unfold py_set. rewrite py_index_high; [done | lia]. Qed.

Lemma py_set_length l i v l' : py_set l i v = Some l' -> length l' = length l.
Proof.
  unfold py_set. destruct (py_index _ i); [|discriminate].
  intros [= <-]. apply length_insert.
Qed.

(** A subscript that can be read can be assigned, and conversely. *)
Lemma py_get_set_defined l i v :
  is_Some (py_get l i) <-> is_Some (py_set l i v).
Proof.
  unfold py_get, py_set. destruct (py_index _ i) as [n|] eqn:E.
  - apply py_index_lt in E. split; intros _; [by eexists|].
    apply lookup_lt_is_Some. lia.
  - split; intros [? ?]; discriminate.
Qed.

Lemma py_get_set_eq l i v l' : py_set l i v = Some l' -> py_get l' i = Some v.
Proof.
  intros H. pose proof (py_set_length _ _ _ _ H) as Hlen.
  unfold py_get, py_set in *. rewrite Hlen.
  destruct (py_index _ i) as [n|] eqn:E; [|discriminate].
  injection H as <-. apply py_index_lt in E.
  apply list_lookup_insert_eq. lia.
Qed.

Lemma py_get_set_ne l i j v l' :
  py_set l i v = Some l' ->
  py_index (Z.of_nat (length l)) i <> py_index (Z.of_nat (length l)) j ->
  py_get l' j = py_get l j.
Proof.
  intros H Hne. pose proof (py_set_length _ _ _ _ H) as Hlen.
  unfold py_get, py_set in *. rewrite Hlen.
  destruct (py_index _ i) as [n|] eqn:E; [|discriminate].
  injection H as <-.
  destruct (py_index _ j) as [m|]; [|done].
  apply list_lookup_insert_ne. congruence.
Qed.

(** Assigning to a subscript the value it already holds changes nothing. *)
Lemma py_set_same l i v : py_get l i = Some v -> py_set l i v = Some l.
Proof.
  unfold py_get, py_set. destruct (py_index _ i) as [n|]; [|discriminate].
  intros H. f_equal. by apply list_insert_id.
Qed.

Lemma py_set_twice l i v w l' :
  py_set l i v = Some l' -> py_set l' i w = py_set l i w.
Proof.
  intros H. pose proof (py_set_length _ _ _ _ H) as Hlen.
  unfold py_set in *. rewrite Hlen.
  destruct (py_index _ i) as [n|]; [|discriminate].
  injection H as <-. by rewrite list_insert_insert_eq.
Qed.
End PyList.

(** ** Running the monad *)

Section Exec.
Context {A B : Type}.

Lemma bind_ok (m : M A) (k : A -> M B) s a s' :
  m s = (Ok a, s') -> bind m k s = k a s'.
Proof. intros H. unfold bind. by rewrite H. Qed.

Lemma bind_raise (m : M A) (k : A -> M B) s e s' :
  m s = (Raise e, s') -> bind m k s = (Raise e, s').
Proof. intros H. unfold bind. by rewrite H. Qed.
End Exec.

Lemma ram_read_ok s a v : py_get (ram s) a = Some v -> ram_read a s = (Ok v, s).
Proof. intros H. unfold ram_read, bind, gets; simpl. by rewrite H. Qed.

Lemma ram_read_raise s a : py_get (ram s) a = None -> ram_read a s = (Raise IndexError, s).
Proof. intros H. unfold ram_read, bind, gets; simpl. by rewrite H. Qed.

Lemma ram_write_ok s a v m' :
  py_set (ram s) a v = Some m' -> ram_write a v s = (Ok tt, set_ram s m').
Proof. intros H. unfold ram_write, bind, gets; simpl. by rewrite H. Qed.

Lemma ram_write_raise s a v :
  py_set (ram s) a v = None -> ram_write a v s = (Raise IndexError, s).
Proof. intros H. unfold ram_write, bind, gets; simpl. by rewrite H. Qed.

Lemma reg_read_ok s i v : py_get (registers s) i = Some v -> reg_read i s = (Ok v, s).
Proof. intros H. unfold reg_read, bind, gets; simpl. by rewrite H. Qed.

Lemma reg_read_raise s i :
  py_get (registers s) i = None -> reg_read i s = (Raise IndexError, s).
Proof. intros H. unfold reg_read, bind, gets; simpl. by rewrite H. Qed.

Lemma reg_write_ok s i v r' :
  py_set (registers s) i v = Some r' -> reg_write i v s = (Ok tt, set_registers s r').
Proof. intros H. unfold reg_write, bind, gets; simpl. by rewrite H. Qed.

Lemma reg_write_raise s i v :
  py_set (registers s) i v = None -> reg_write i v s = (Raise IndexError, s).
Proof. intros H. unfold reg_write, bind, gets; simpl. by rewrite H. Qed.

(** Stepping through a method body, one statement at a time. *)
Section Statements.
Context {B : Type}.

Lemma bind_gets {A} (f : CPU -> A) (k : A -> M B) s :
  bind (gets f) k s = k (f s) s.
Proof. reflexivity. Qed.

Lemma bind_modify f (k : unit -> M B) s : bind (modify f) k s = k tt (f s).
Proof. reflexivity. Qed.

Lemma bind_ram_read a (k : Z -> M B) s v :
  py_get (ram s) a = Some v -> bind (ram_read a) k s = k v s.
Proof. intros H. apply bind_ok. by apply ram_read_ok. Qed.

Lemma bind_ram_write a v (k : unit -> M B) s m' :
  py_set (ram s) a v = Some m' -> bind (ram_write a v) k s = k tt (set_ram s m').
Proof. intros H. apply bind_ok. by apply ram_write_ok. Qed.

Lemma bind_reg_read i (k : Z -> M B) s v :
  py_get (registers s) i = Some v -> bind (reg_read i) k s = k v s.
Proof. intros H. apply bind_ok. by apply reg_read_ok. Qed.

Lemma bind_reg_write i v (k : unit -> M B) s r' :
  py_set (registers s) i v = Some r' ->
  bind (reg_write i v) k s = k tt (set_registers s r').
Proof. intros H. apply bind_ok. by apply reg_write_ok. Qed.
End Statements.

(** ** Single flag bits *)

Lemma set_bit_spec f k n :
  0 <= k -> Z.testbit (Z.lor f (2 ^ k)) n = if n =? k then true else Z.testbit f n.
Proof.
  intros Hk. rewrite Z.lor_spec, Z.pow2_bits_eqb by done.
  rewrite (Z.eqb_sym k n). destruct (n =? k); [apply orb_true_r | apply orb_false_r].
Qed.

Lemma clear_bit_spec f k n :
  0 <= k ->
  Z.testbit (Z.land f (Z.lnot (2 ^ k))) n = if n =? k then false else Z.testbit f n.
Proof.
  intros Hk. destruct (Z.ltb_spec n 0) as [Hn|Hn].
  - rewrite !Z.testbit_neg_r by done. by destruct (n =? k).
  - rewrite Z.land_spec, Z.lnot_spec, Z.pow2_bits_eqb by done.
    rewrite (Z.eqb_sym k n). destruct (n =? k); [apply andb_false_r | apply andb_true_r].
Qed.

(** The value of a 3-bit field is determined by its three bits. *)
Lemma low3_bits f b0 b1 b2 :
  Z.testbit f 0 = b0 -> Z.testbit f 1 = b1 -> Z.testbit f 2 = b2 ->
  Z.land f 0x07 = Z.b2z b0 + 2 * Z.b2z b1 + 4 * Z.b2z b2.
Proof.
  intros H0 H1 H2. apply Z.bits_inj'. intros n Hn.
  rewrite Z.land_spec. change 0x07 with (Z.ones 3).
  rewrite Z.testbit_ones_nonneg by lia.
  destruct (Z.ltb_spec n 3) as [Hlt|Hge].
  - rewrite andb_true_r.
    assert (n = 0 \/ n = 1 \/ n = 2) as [->|[->| ->]] by lia;
      [rewrite H0 | rewrite H1 | rewrite H2];
      by destruct b0, b1, b2.
  - rewrite andb_false_r. symmetry.
    assert (0 <= Z.b2z b0 + 2 * Z.b2z b1 + 4 * Z.b2z b2 < 2 ^ 3)
      by (destruct b0, b1, b2; simpl; lia).
    rewrite <- (Z.mod_small _ (2 ^ 3)) by done.
    apply Z.mod_pow2_bits_high. lia.
Qed.

Lemma land_1_bit0 f : Z.land f 0x01 = Z.b2z (Z.testbit f 0).
Proof.
  change 0x01 with (Z.ones 1). rewrite Z.land_ones by lia.
  symmetry. apply Z.bit0_mod.
Qed.

(** ** The loop body, instruction by instruction *)

(** A fetched opcode with a handler: the handler runs on the state whose
    [ir] holds the opcode, then [advance]. *)
Lemma step_dispatch s op h :
  py_get (ram s) (pc s) = Some op ->
  dict_get branch_table (Z.land op 0x3F) = Some h ->
  step s = bind h (fun _ => advance) (set_ir s (Z.land op 0x3F)).
Proof.
  intros Hop Hh. unfold step.
  rewrite (bind_ok _ _ s (pc s) s) by done.
  rewrite (bind_ok _ _ s op s) by (by apply ram_read_ok).
  rewrite (bind_ok _ _ s tt (set_ir s (Z.land op 0x3F))) by done.
  rewrite (bind_ok _ _ _ (Z.land op 0x3F) (set_ir s (Z.land op 0x3F))) by done.
  unfold handler_for. rewrite Hh.
  by rewrite (bind_ok _ _ _ h (set_ir s (Z.land op 0x3F))).
Qed.

(** [advance] for an opcode other than CALL, RET and JMP. *)
Lemma advance_moves s b :
  ir s <> instructions.CALL -> ir s <> instructions.RET -> ir s <> instructions.JMP ->
  py_get (ram s) (pc s) = Some b ->
  advance s = (Ok tt, set_pc s (pc s + Z.shiftr b 6 + 1)).
Proof.
  intros H1 H2 H3 Hb. unfold advance.
  rewrite (bind_ok _ _ s (ir s) s) by done.
  apply Z.eqb_neq in H1, H2, H3. rewrite H1, H2, H3. simpl.
  rewrite (bind_ok _ _ s (pc s) s) by done.
  rewrite (bind_ok _ _ s (pc s) s) by done.
  by rewrite (bind_ok _ _ s b s) by (by apply ram_read_ok).
Qed.

(** [advance] after CALL, RET or JMP does nothing. *)
Lemma advance_skips s :
  ir s = instructions.CALL \/ ir s = instructions.RET \/ ir s = instructions.JMP ->
  advance s = (Ok tt, s).
Proof.
  intros H. unfold advance. rewrite (bind_ok _ _ s (ir s) s) by done.
  by destruct H as [-> | [-> | ->]].
Qed.

(** ** CMP and the flags *)

(** The flags left by the three updates of the CMP branch of [alu]. *)
Definition cmp_flags (f va vb : Z) : Z :=
  let f1 := if va =? vb then Z.lor f 0x01 else Z.land f (Z.lnot 0x01) in
  let f2 := if va >? vb then Z.lor f1 0x02 else Z.land f1 (Z.lnot 0x02) in
  if va <? vb then Z.lor f2 0x04 else Z.land f2 (Z.lnot 0x04).

Lemma alu_cmp_exec s a b va vb :
  py_get (registers s) a = Some va ->
  py_get (registers s) b = Some vb ->
  alu "CMP" a b s = (Ok tt, set_fl s (cmp_flags (fl s) va vb)).
Proof.
  intros Ha Hb. unfold alu, cmp_flags.
  change (String.eqb "CMP" "ADD") with false.
  change (String.eqb "CMP" "CMP") with true. cbv iota.
  rewrite (bind_reg_read a _ _ va), (bind_reg_read b _ _ vb), bind_modify by done.
  destruct (va =? vb);
    rewrite (bind_reg_read a _ _ va), (bind_reg_read b _ _ vb), bind_modify by done;
    destruct (va >? vb);
    rewrite (bind_reg_read a _ _ va), (bind_reg_read b _ _ vb) by done;
    unfold modify; by destruct (va <? vb).
Qed.

Lemma cmp_flags_testbit f va vb n :
  Z.testbit (cmp_flags f va vb) n =
    if n =? 2 then va <? vb
    else if n =? 1 then va >? vb
    else if n =? 0 then va =? vb
    else Z.testbit f n.
Proof.
  unfold cmp_flags.
  pose proof (fun g => set_bit_spec g 0 n ltac:(lia)) as S0.
  pose proof (fun g => set_bit_spec g 1 n ltac:(lia)) as S1.
  pose proof (fun g => set_bit_spec g 2 n ltac:(lia)) as S2.
  pose proof (fun g => clear_bit_spec g 0 n ltac:(lia)) as C0.
  pose proof (fun g => clear_bit_spec g 1 n ltac:(lia)) as C1.
  pose proof (fun g => clear_bit_spec g 2 n ltac:(lia)) as C2.
  change (2 ^ 0) with 0x01 in *. change (2 ^ 1) with 0x02 in *.
  change (2 ^ 2) with 0x04 in *.
  destruct (va =? vb), (va >? vb), (va <? vb);
    rewrite ?S2, ?C2, ?S1, ?C1, ?S0, ?C0;
    destruct (n =? 2), (n =? 1), (n =? 0); reflexivity.
Qed.

(** An operand that is no register index: CMP raises before any flag is
    touched. *)
Lemma alu_cmp_bad_operand s a b :
  py_get (registers s) a = None \/ py_get (registers s) b = None ->
  alu "CMP" a b s = (Raise IndexError, s).
Proof.
  intros H. unfold alu.
  change (String.eqb "CMP" "ADD") with false.
  change (String.eqb "CMP" "CMP") with true. cbv iota.
  destruct (py_get (registers s) a) as [va|] eqn:Ha.
  - destruct H as [H|H]; [discriminate|].
    rewrite (bind_ok _ _ s va s) by (by apply reg_read_ok).
    by rewrite (bind_raise _ _ s IndexError s) by (by apply reg_read_raise).
  - by rewrite (bind_raise _ _ s IndexError s) by (by apply reg_read_raise).
Qed.

(** C7: for all register values, CMP leaves exactly one of the three flag
    bits Equal (bit 0), Greater (bit 1), Less (bit 2) set and the other two
    clear: the low three bits of [fl] are 1, 2 or 4 according to the
    comparison.  The update is one transition of the machine state, to the
    same state with only [fl] replaced; higher bits of [fl] are kept. *)
Theorem alu_cmp_sets_exactly_one_flag s a b va vb :
  py_get (registers s) a = Some va ->
  py_get (registers s) b = Some vb ->
  exists f',
    alu "CMP" a b s = (Ok tt, set_fl s f') /\
    Z.testbit f' 0 = (va =? vb) /\
    Z.testbit f' 1 = (va >? vb) /\
    Z.testbit f' 2 = (va <? vb) /\
    Z.land f' 0x07 = (if va =? vb then 1 else if va >? vb then 2 else 4) /\
    (Z.land f' 0x07 = 1 \/ Z.land f' 0x07 = 2 \/ Z.land f' 0x07 = 4) /\
    (forall n, 3 <= n -> Z.testbit f' n = Z.testbit (fl s) n).
Proof.
  intros Ha Hb. exists (cmp_flags (fl s) va vb).
  split; [by apply alu_cmp_exec|].
  assert (Z.land (cmp_flags (fl s) va vb) 0x07
          = (if va =? vb then 1 else if va >? vb then 2 else 4)) as Hlow.
  { rewrite (low3_bits _ (va =? vb) (va >? vb) (va <? vb))
      by (by rewrite cmp_flags_testbit).
    rewrite Z.gtb_ltb.
    destruct (Z.eqb_spec va vb), (Z.ltb_spec vb va), (Z.ltb_spec va vb);
      simpl; lia. }
  rewrite !cmp_flags_testbit. simpl.
  repeat split; try done.
  - rewrite Hlow. destruct (va =? vb); [tauto|]. destruct (va >? vb); tauto.
  - intros n Hn.
    rewrite cmp_flags_testbit.
    destruct (Z.eqb_spec n 2), (Z.eqb_spec n 1), (Z.eqb_spec n 0); (done || lia).
Qed.

Lemma alu_cmp_sets_exactly_one_flag_witness :
  exists f',
    alu "CMP" 7 0 (set_fl init 7) = (Ok tt, set_fl (set_fl init 7) f') /\
    Z.land f' 0x07 = 2.
Proof.
  destruct (alu_cmp_sets_exactly_one_flag (set_fl init 7) 7 0 0xF4 0 eq_refl eq_refl)
    as (f' & H & _ & _ & _ & Hlow & _).
  exists f'. split; [exact H | exact Hlow].
Defined.

(** ** Conditional jumps after CMP *)

(** Both conditional jumps are the unconditional one behind a test. *)
Lemma jeq_unfold s : jeq s = if jeq_taken s then jmp s else (Ok tt, s).
Proof. unfold jeq. rewrite bind_gets. by destruct (jeq_taken s). Qed.

Lemma jne_unfold s : jne s = if jne_taken s then jmp s else (Ok tt, s).
Proof. unfold jne. rewrite bind_gets. by destruct (jne_taken s). Qed.

Lemma cmp_exec s a b va vb :
  py_get (ram s) (pc s + 1) = Some a ->
  py_get (ram s) (pc s + 2) = Some b ->
  py_get (registers s) a = Some va ->
  py_get (registers s) b = Some vb ->
  cmp s = (Ok tt, set_fl s (cmp_flags (fl s) va vb)).
Proof.
  intros Ha Hb Hva Hvb. unfold cmp.
  rewrite bind_gets, (bind_ram_read _ _ _ a) by done.
  rewrite bind_gets, (bind_ram_read _ _ _ b) by done.
  by apply alu_cmp_exec.
Qed.

(** The body shared by [jmp] and the taken branches of [jeq] and [jne]:
    [pc] receives the value of the operand register. *)
Lemma jump_body s r t :
  py_get (ram s) (pc s + 1) = Some r ->
  py_get (registers s) r = Some t ->
  jmp s = (Ok tt, set_pc s t).
Proof.
  intros Hr Ht. unfold jmp.
  by rewrite bind_gets, (bind_ram_read _ _ _ r), (bind_reg_read _ _ _ t).
Qed.

(** C8: one loop iteration on CMP a, b brings the machine, registers and
    memory unchanged, to the next instruction in a state in which JEQ takes
    its jump exactly when registers a and b were equal at comparison time and
    JNE exactly when they differed.  The handler of a taken jump assigns the
    operand register's value t to [pc] and changes nothing else; the handler
    of a jump that is not taken changes nothing.  In the loop, the iteration
    on a taken JEQ or JNE therefore ends with [pc] at t plus the length of
    the instruction found at t (the loop advances after it, see C1), and the
    iteration on one that is not taken ends with [pc] at the instruction
    after the jump. *)
Theorem cmp_then_jeq_jne s op a b va vb op2 r t bt :
  py_get (ram s) (pc s) = Some op ->
  Z.land op 0x3F = instructions.CMP ->
  py_get (ram s) (pc s + 1) = Some a ->
  py_get (ram s) (pc s + 2) = Some b ->
  py_get (registers s) a = Some va ->
  py_get (registers s) b = Some vb ->
  py_get (ram s) (pc s + Z.shiftr op 6 + 1) = Some op2 ->
  py_get (ram s) (pc s + Z.shiftr op 6 + 1 + 1) = Some r ->
  py_get (registers s) r = Some t ->
  py_get (ram s) t = Some bt ->
  exists s1,
    step s = (Ok tt, s1) /\
    pc s1 = pc s + Z.shiftr op 6 + 1 /\
    ram s1 = ram s /\ registers s1 = registers s /\
    (jeq_taken s1 = true <-> va = vb) /\
    (jne_taken s1 = true <-> va <> vb) /\
    (va = vb ->
       jne s1 = (Ok tt, s1) /\
       exists s', jeq s1 = (Ok tt, s') /\ pc s' = t /\
                  ram s' = ram s /\ registers s' = registers s /\
                  fl s' = fl s1 /\ stdout s' = stdout s) /\
    (va <> vb ->
       jeq s1 = (Ok tt, s1) /\
       exists s', jne s1 = (Ok tt, s') /\ pc s' = t /\
                  ram s' = ram s /\ registers s' = registers s /\
                  fl s' = fl s1 /\ stdout s' = stdout s) /\
    (Z.land op2 0x3F = instructions.JEQ ->
       exists s2,
         step s1 = (Ok tt, s2) /\
         ram s2 = ram s /\ registers s2 = registers s /\
         (va = vb -> pc s2 = t + Z.shiftr bt 6 + 1) /\
         (va <> vb -> pc s2 = pc s1 + Z.shiftr op2 6 + 1)) /\
    (Z.land op2 0x3F = instructions.JNE ->
       exists s2,
         step s1 = (Ok tt, s2) /\
         ram s2 = ram s /\ registers s2 = registers s /\
         (va <> vb -> pc s2 = t + Z.shiftr bt 6 + 1) /\
         (va = vb -> pc s2 = pc s1 + Z.shiftr op2 6 + 1)).
Proof.
  intros Hop Hk Ha Hb Hva Hvb Hop2 Hr Ht Hbt.
  set (s0 := set_ir s (Z.land op 0x3F)).
  set (sc := set_fl s0 (cmp_flags (fl s0) va vb)).
  set (s1 := set_pc sc (pc s + Z.shiftr op 6 + 1)).
  assert (step s = (Ok tt, s1)) as Hstep1.
  { rewrite (step_dispatch s op cmp Hop) by (by rewrite Hk).
    rewrite (bind_ok _ _ s0 tt sc) by (by apply (cmp_exec s0 a b)).
    rewrite (advance_moves sc op); [done| | | |done];
      cbn [ir sc s0 set_fl set_ir]; by rewrite Hk. }
  assert (Z.land (fl s1) 0x01 = Z.b2z (va =? vb)) as Hbit.
  { rewrite land_1_bit0. change (fl s1) with (cmp_flags (fl s0) va vb).
    by rewrite cmp_flags_testbit. }
  assert (jeq_taken s1 = (va =? vb)) as Hjeq
    by (unfold jeq_taken; rewrite Hbit; by destruct (va =? vb)).
  assert (jne_taken s1 = negb (va =? vb)) as Hjne
    by (unfold jne_taken; rewrite Hbit; by destruct (va =? vb)).
  (* the jump itself, on [s1] with any value of [ir] *)
  assert (forall k, jmp (set_ir s1 k) = (Ok tt, set_pc (set_ir s1 k) t)) as Hjump
    by (intros k; by apply (jump_body _ r)).
  assert (jmp s1 = (Ok tt, set_pc s1 t)) as Hjump1 by (by apply (jump_body _ r)).
  exists s1. split; [done|]. split; [done|]. split; [done|]. split; [done|].
  split; [rewrite Hjeq; apply Z.eqb_eq|].
  split; [rewrite Hjne, negb_true_iff; apply Z.eqb_neq|].
  split; [|split; [|split]].
  - intros Heq. apply Z.eqb_eq in Heq.
    rewrite jne_unfold, jeq_unfold, Hjeq, Hjne, Heq. cbn [negb].
    split; [done|]. exists (set_pc s1 t). by rewrite Hjump1.
  - intros Hne. apply Z.eqb_neq in Hne.
    rewrite jne_unfold, jeq_unfold, Hjeq, Hjne, Hne. cbn [negb].
    split; [done|]. exists (set_pc s1 t). by rewrite Hjump1.
  - intros Hk2. set (u := set_ir s1 (Z.land op2 0x3F)).
    assert (jeq u = if va =? vb then (Ok tt, set_pc u t) else (Ok tt, u)) as Hh.
    { rewrite jeq_unfold. change (jeq_taken u) with (jeq_taken s1).
      rewrite Hjeq. destruct (va =? vb); [apply Hjump | done]. }
    destruct (Z.eqb_spec va vb) as [Heq|Hne].
    + exists (set_pc (set_pc u t) (t + Z.shiftr bt 6 + 1)).
      split; [|by repeat split].
      rewrite (step_dispatch s1 op2 jeq Hop2) by (by rewrite Hk2).
      rewrite (bind_ok _ _ _ tt (set_pc u t) Hh).
      rewrite (advance_moves (set_pc u t) bt); [done| | | |done];
        cbn [ir u set_pc set_ir]; by rewrite Hk2.
    + exists (set_pc u (pc s1 + Z.shiftr op2 6 + 1)).
      split; [|by repeat split].
      rewrite (step_dispatch s1 op2 jeq Hop2) by (by rewrite Hk2).
      rewrite (bind_ok _ _ _ tt u Hh).
      rewrite (advance_moves u op2); [done| | | |done];
        cbn [ir u set_pc set_ir]; by rewrite Hk2.
  - intros Hk2. set (u := set_ir s1 (Z.land op2 0x3F)).
    assert (jne u = if va =? vb then (Ok tt, u) else (Ok tt, set_pc u t)) as Hh.
    { rewrite jne_unfold. change (jne_taken u) with (jne_taken s1).
      rewrite Hjne. destruct (va =? vb); [done | apply Hjump]. }
    destruct (Z.eqb_spec va vb) as [Heq|Hne].
    + exists (set_pc u (pc s1 + Z.shiftr op2 6 + 1)).
      split; [|by repeat split].
      rewrite (step_dispatch s1 op2 jne Hop2) by (by rewrite Hk2).
      rewrite (bind_ok _ _ _ tt u Hh).
      rewrite (advance_moves u op2); [done| | | |done];
        cbn [ir u set_pc set_ir]; by rewrite Hk2.
    + exists (set_pc (set_pc u t) (t + Z.shiftr bt 6 + 1)).
      split; [|by repeat split].
      rewrite (step_dispatch s1 op2 jne Hop2) by (by rewrite Hk2).
      rewrite (bind_ok _ _ _ tt (set_pc u t) Hh).
      rewrite (advance_moves (set_pc u t) bt); [done| | | |done];
        cbn [ir u set_pc set_ir]; by rewrite Hk2.
Qed.

(** LDI R2,9; CMP R0,R0; JEQ R2; HLT; PRN R0; HLT, after the LDI has run:
    the CMP is at address 3, the JEQ at 6, and its target 9 holds a PRN. *)
Lemma cmp_then_jeq_jne_witness :
  exists s1 s2,
    step (snd (run 1 (snd (boot [130; 2; 9; 167; 0; 0; 85; 2; 1; 71; 0; 1]))))
    = (Ok tt, s1) /\
    jeq_taken s1 = true /\
    step s1 = (Ok tt, s2) /\
    pc s2 = 11.
Proof.
  destruct (cmp_then_jeq_jne
              (snd (run 1 (snd (boot [130; 2; 9; 167; 0; 0; 85; 2; 1; 71; 0; 1]))))
              167 0 0 0 0 85 2 9 71
              eq_refl eq_refl eq_refl eq_refl eq_refl eq_refl
              eq_refl eq_refl eq_refl eq_refl)
    as (s1 & Hstep & _ & _ & _ & [_ Htaken] & _ & _ & _ & Hjeq & _).
  destruct (Hjeq eq_refl) as (s2 & Hstep2 & _ & _ & Hpc & _).
  exists s1, s2.
  split; [exact Hstep|]. split; [exact (Htaken eq_refl)|].
  split; [exact Hstep2 | exact (Hpc eq_refl)].
Defined.

(** ** Opcodes without a handler *)

Lemma opcode_zero_unregistered : dict_get branch_table 0x00 = None.
Proof. reflexivity. Qed.

(** The keys of [branch_table] are the thirteen opcodes of [instructions]
    other than the placeholder 0. *)
Lemma registered_opcodes k :
  is_Some (dict_get branch_table k) <->
  In k [0x01; 0x02; 0x05; 0x06; 0x07; 0x10; 0x11; 0x14; 0x15; 0x16; 0x27; 0x20; 0x22].
Proof.
  unfold branch_table, instructions.HLT, instructions.LDI, instructions.PUSH,
    instructions.POP, instructions.PRN, instructions.CALL, instructions.RET,
    instructions.JMP, instructions.JEQ, instructions.JNE, instructions.CMP,
    instructions.ADD, instructions.MUL.
  cbn [dict_get].
  repeat match goal with
         | |- context [?c =? k] =>
             destruct (Z.eqb_spec c k);
             [subst k; split; [intros _; simpl; tauto | intros _; by eexists]|]
         end.
  split; [intros [? ?]; discriminate | simpl; intros H; exfalso; intuition congruence].
Qed.

(** C2: when the byte fetched at [pc], masked to its low six bits, is an
    opcode without a registered handler, [run] stops there by raising the
    lookup failure of [branch_table] (Python's [KeyError] carrying the
    opcode), which reaches the caller of [run]; registers (SP included),
    memory, flags, [pc] and the output are as they were before the fetch. *)
Theorem illegal_instruction_stops s op n :
  py_get (ram s) (pc s) = Some op ->
  dict_get branch_table (Z.land op 0x3F) = None ->
  exists s',
    run (S n) s = (Raise (KeyError (Z.land op 0x3F)), s') /\
    registers s' = registers s /\ ram s' = ram s /\ fl s' = fl s /\
    pc s' = pc s /\ stdout s' = stdout s.
Proof.
  intros Hop Hnone. exists (set_ir s (Z.land op 0x3F)).
  split; [|done].
  simpl run. apply bind_raise. unfold step.
  rewrite bind_gets, (bind_ram_read _ _ _ op), bind_modify, bind_gets by done.
  apply bind_raise. unfold handler_for. cbn [ir set_ir]. by rewrite Hnone.
Qed.

Lemma illegal_instruction_stops_witness :
  exists s',
    run 1 init = (Raise (KeyError 0), s') /\
    registers s' = registers init /\ ram s' = ram init /\ fl s' = fl init /\
    pc s' = pc init /\ stdout s' = stdout init.
Proof. exact (illegal_instruction_stops init 0 0%nat eq_refl eq_refl). Defined.

(** Closed goals about concrete runs are settled by evaluation. *)
Ltac by_evaluation :=
  repeat match goal with
         | |- _ /\ _ => split
         end;
  try (vm_compute; reflexivity).

(** ** Whole runs *)

(** Once the loop has ended with an exception, more iterations allowed
    change nothing. *)
Lemma run_raise_mono n k s e s' :
  run n s = (Raise e, s') -> run (n + k) s = (Raise e, s').
Proof.
  revert s. induction n as [|n IH]; intros s H; [discriminate|].
  change (run (S n + k)) with (bind step (fun _ => run (n + k))).
  change (run (S n)) with (bind step (fun _ => run n)) in H.
  destruct (step s) as [[[]|e1] s1] eqn:Hstep.
  - rewrite (bind_ok _ _ _ _ _ Hstep) in H. rewrite (bind_ok _ _ _ _ _ Hstep).
    by apply IH.
  - rewrite (bind_raise _ _ _ _ _ Hstep) in H. by rewrite (bind_raise _ _ _ _ _ Hstep).
Qed.

(** [mul] on a register file whose first two entries are [r0] and [r1]. *)
Lemma mul_exec s r0 r1 rest :
  mul (set_registers s (r0 :: r1 :: rest))
  = (Ok tt, set_registers s (r0 * r1 :: r1 :: rest)).
Proof.
  unfold mul.
  rewrite (bind_reg_read 0 _ _ r0), (bind_reg_read 1 _ _ r1)
    by (cbn [registers set_registers]; rewrite py_get_nonneg;
        [done | cbn [length]; lia]).
  rewrite (reg_write_ok _ 0 _ (r0 * r1 :: r1 :: rest)); [done|].
  cbn [registers set_registers]. rewrite py_set_nonneg; [done | cbn [length]; lia].
Qed.

(** [mul] never looks at memory, so not at its operand bytes either. *)
Lemma mul_ignores_ram s m :
  mul (set_ram s m) = (fst (mul s), set_ram (snd (mul s)) m).
Proof.
  unfold mul.
  destruct (py_get (registers s) 0) as [r0|] eqn:H0.
  - rewrite (bind_reg_read 0 _ (set_ram s m) r0), (bind_reg_read 0 _ s r0) by done.
    destruct (py_get (registers s) 1) as [r1|] eqn:H1.
    + rewrite (bind_reg_read 1 _ (set_ram s m) r1), (bind_reg_read 1 _ s r1) by done.
      destruct (py_set (registers s) 0 (r0 * r1)) as [r'|] eqn:H2.
      * by rewrite (reg_write_ok (set_ram s m) _ _ r'), (reg_write_ok s _ _ r').
      * by rewrite (reg_write_raise (set_ram s m)), (reg_write_raise s).
    + by rewrite (bind_raise _ _ (set_ram s m) IndexError (set_ram s m)),
        (bind_raise _ _ s IndexError s) by (by apply reg_read_raise).
  - by rewrite (bind_raise _ _ (set_ram s m) IndexError (set_ram s m)),
      (bind_raise _ _ s IndexError s) by (by apply reg_read_raise).
Qed.

(** [mult.ls8]: LDI R0,8; LDI R1,9; MUL R0,R1; PRN R0; HLT *)
Definition mult_ls8 : list Z :=
  [ 130; 0; 8;      (* 10000010 LDI R0,8 *)
    130; 1; 9;      (* 10000010 LDI R1,9 *)
    162; 0; 1;      (* 10100010 MUL R0,R1 *)
    71; 0;          (* 01000111 PRN R0 *)
    1 ].            (* 00000001 HLT *)

(** C9: a fresh machine loaded with LDI R0,8; LDI R1,9; MUL; PRN R0; HLT
    ends, after five iterations of the loop and whatever the number of
    further iterations allowed, with [SystemExit] from HLT, having written
    the single line 72.  MUL multiplies registers 0 and 1 into register 0
    whatever the register file holds, and its result does not depend on
    memory, hence not on the operand bytes that follow its opcode. *)
Theorem mult_program_prints_72 :
  (forall k, exists s0 s',
      boot mult_ls8 = (Ok tt, s0) /\
      run (5 + k) s0 = (Raise SystemExit, s') /\
      stdout s' = ["72"%string] /\
      py_get (registers s') 0 = Some 72) /\
  (forall s r0 r1 rest,
      mul (set_registers s (r0 :: r1 :: rest))
      = (Ok tt, set_registers s (r0 * r1 :: r1 :: rest))) /\
  (forall s m, mul (set_ram s m) = (fst (mul s), set_ram (snd (mul s)) m)).
Proof.
  split; [|split; [exact mul_exec | exact mul_ignores_ram]].
  intros k. eexists. eexists.
  split; [vm_compute; reflexivity|].
  split; [apply run_raise_mono; vm_compute; reflexivity|].
  split; vm_compute; reflexivity.
Qed.

(** ** ADD *)

(** LDI R0,200; LDI R1,100; ADD R0,R1; HLT *)
Definition add_ls8 : list Z :=
  [ 130; 0; 200;    (* 10000010 LDI R0,200 *)
    130; 1; 100;    (* 10000010 LDI R1,100 *)
    160; 0; 1;      (* 10100000 ADD R0,R1 *)
    1 ].            (* 00000001 HLT *)

(** C3, as stated, fails: after LDI R0,200; LDI R1,100; ADD R0,R1 register 0
    holds 300, which is neither below 256 nor the sum reduced modulo 256. *)
Lemma add_exceeds_byte_range :
  exists s0 s',
    boot add_ls8 = (Ok tt, s0) /\
    run 4 s0 = (Raise SystemExit, s') /\
    py_get (registers s') 0 = Some 300 /\
    ~ (300 < 256) /\ 300 <> (200 + 100) mod 256.
Proof.
  eexists. eexists.
  split; [vm_compute; reflexivity|].
  split; [vm_compute; reflexivity|].
  split; [vm_compute; reflexivity|]. split; [lia | discriminate].
Qed.

(** C3, amended: for all register subscripts [a] and [b] that the register
    file accepts, ADD stores into register [a] the exact integer sum of
    registers [a] and [b], with no reduction; every other register keeps its
    value, and nothing else in the machine changes. *)
Theorem alu_add_exact_sum s a b va vb :
  py_get (registers s) a = Some va ->
  py_get (registers s) b = Some vb ->
  exists r',
    alu "ADD" a b s = (Ok tt, set_registers s r') /\
    py_get r' a = Some (va + vb) /\
    length r' = length (registers s) /\
    (forall c,
        py_index (Z.of_nat (length (registers s))) c
        <> py_index (Z.of_nat (length (registers s))) a ->
        py_get r' c = py_get (registers s) c).
Proof.
  intros Ha Hb.
  destruct (proj1 (py_get_set_defined (registers s) a (va + vb))) as [r' Hr'];
    [by eexists|].
  exists r'. split; [|split; [|split]].
  - unfold alu. change (String.eqb "ADD" "ADD") with true. cbv iota.
    rewrite (bind_reg_read a _ _ va), (bind_reg_read b _ _ vb) by done.
    by apply reg_write_ok.
  - by apply (py_get_set_eq (registers s)).
  - by apply (py_set_length _ a (va + vb)).
  - intros c Hc. apply (py_get_set_ne _ a c (va + vb)); [done|]. congruence.
Qed.

Lemma alu_add_exact_sum_witness :
  exists r',
    alu "ADD" 7 7 init = (Ok tt, set_registers init r') /\
    py_get r' 7 = Some (0xF4 + 0xF4).
Proof.
  destruct (alu_add_exact_sum init 7 7 0xF4 0xF4 eq_refl eq_refl)
    as (r' & H & Hget & _).
  exists r'. split; [exact H | exact Hget].
Defined.

(** ** Jumps and the program counter *)

Lemma jmp_exec s r target :
  py_get (ram s) (pc s + 1) = Some r ->
  py_get (registers s) r = Some target ->
  jmp s = (Ok tt, set_pc s target).
Proof.
  intros Hr Ht. unfold jmp.
  by rewrite bind_gets, (bind_ram_read _ _ _ r), (bind_reg_read _ _ _ target).
Qed.

(** One loop iteration on a JEQ whose jump is taken: the handler sets [pc]
    to the target, and [advance], which exempts only CALL, RET and JMP, then
    moves [pc] past the instruction found at the target. *)
Lemma step_taken_jeq s op r target b :
  py_get (ram s) (pc s) = Some op ->
  Z.land op 0x3F = instructions.JEQ ->
  jeq_taken s = true ->
  py_get (ram s) (pc s + 1) = Some r ->
  py_get (registers s) r = Some target ->
  py_get (ram s) target = Some b ->
  step s = (Ok tt, set_pc (set_ir s instructions.JEQ) (target + Z.shiftr b 6 + 1)).
Proof.
  intros Hop Hk Htaken Hr Ht Hb.
  rewrite (step_dispatch s op jeq Hop) by (by rewrite Hk).
  rewrite Hk.
  rewrite (bind_ok _ _ _ tt (set_pc (set_ir s instructions.JEQ) target)).
  - by rewrite (advance_moves _ b).
  - rewrite jeq_unfold.
    change (jeq_taken (set_ir s instructions.JEQ)) with (jeq_taken s).
    rewrite Htaken. by apply (jmp_exec _ r).
Qed.

(** The same for JNE: a taken JNE ends one instruction past its target. *)
Lemma step_taken_jne s op r target b :
  py_get (ram s) (pc s) = Some op ->
  Z.land op 0x3F = instructions.JNE ->
  jne_taken s = true ->
  py_get (ram s) (pc s + 1) = Some r ->
  py_get (registers s) r = Some target ->
  py_get (ram s) target = Some b ->
  step s = (Ok tt, set_pc (set_ir s instructions.JNE) (target + Z.shiftr b 6 + 1)).
Proof.
  intros Hop Hk Htaken Hr Ht Hb.
  rewrite (step_dispatch s op jne Hop) by (by rewrite Hk).
  rewrite Hk.
  rewrite (bind_ok _ _ _ tt (set_pc (set_ir s instructions.JNE) target)).
  - by rewrite (advance_moves _ b).
  - rewrite jne_unfold.
    change (jne_taken (set_ir s instructions.JNE)) with (jne_taken s).
    rewrite Htaken. by apply (jmp_exec _ r).
Qed.

(** LDI R2,6; JNE R2; HLT; PRN R0; HLT.  The flags of a fresh machine are
    zero, so the JNE is taken; its target is the PRN at address 6. *)
Definition jne_ls8 : list Z :=
  [ 130; 2; 6;      (* 0: 10000010 LDI R2,6 *)
    86; 2;          (* 3: 01010110 JNE R2 *)
    1;              (* 5: 00000001 HLT *)
    71; 0;          (* 6: 01000111 PRN R0 *)
    1 ].            (* 8: 00000001 HLT *)

(** LDI R2,9; CMP R0,R0; JEQ R2; HLT; PRN R0; HLT.  The JEQ is taken; its
    target is the PRN at address 9. *)
Definition jeq_ls8 : list Z :=
  [ 130; 2; 9;      (* 0: 10000010 LDI R2,9 *)
    167; 0; 0;      (* 3: 10100111 CMP R0,R0 *)
    85; 2;          (* 6: 01010101 JEQ R2 *)
    1;              (* 8: 00000001 HLT *)
    71; 0;          (* 9: 01000111 PRN R0 *)
    1 ].            (* 11: 00000001 HLT *)

(** C1 at a failing input: after the taken JNE of [jne_ls8] the operand
    register holds 6 but [pc] is 8, and after the taken JEQ of [jeq_ls8] the
    operand register holds 9 but [pc] is 11.  In both programs the PRN at
    the jump target is never executed: the run halts with nothing written. *)
Theorem taken_conditional_jump_overshoots :
  (exists s0 s2 s',
      boot jne_ls8 = (Ok tt, s0) /\
      run 2 s0 = (Ok tt, s2) /\
      jne_taken (snd (run 1 s0)) = true /\
      py_get (registers s2) 2 = Some 6 /\ pc s2 = 8 /\
      run 3 s0 = (Raise SystemExit, s') /\ stdout s' = []) /\
  (exists s0 s3 s',
      boot jeq_ls8 = (Ok tt, s0) /\
      run 3 s0 = (Ok tt, s3) /\
      jeq_taken (snd (run 2 s0)) = true /\
      py_get (registers s3) 2 = Some 9 /\ pc s3 = 11 /\
      run 4 s0 = (Raise SystemExit, s') /\ stdout s' = []).
Proof.
  split; do 3 eexists; by_evaluation.
Qed.

(** ** The stack pointer *)

(** LDI R0,255; PUSH R0; POP R7; HLT *)
Definition pop_sp_ls8 : list Z :=
  [ 130; 0; 255;    (* 10000010 LDI R0,255 *)
    69; 0;          (* 01000101 PUSH R0 *)
    70; 7;          (* 01000110 POP R7 *)
    1 ].            (* 00000001 HLT *)

(** LDI R7,0; CALL R0 *)
Definition call_sp_ls8 : list Z :=
  [ 130; 7; 0;      (* 10000010 LDI R7,0 *)
    80; 0 ].        (* 01010000 CALL R0 *)

(** LDI R1,0xF4; JMP R1; and at address 0xF4 a CALL R1 that calls itself. *)
Definition recursion_ls8 : list Z :=
  [130; 1; 0xF4; 84; 1] ++ replicate 239%nat 0 ++ [80; 1].

(** C4 at a failing input: in [pop_sp_ls8] the POP loads 255 into register 7
    and its increment, which is not masked, leaves SP at 256. *)
Theorem pop_leaves_sp_above_255 :
  exists s0 s3 s',
    boot pop_sp_ls8 = (Ok tt, s0) /\
    run 3 s0 = (Ok tt, s3) /\
    py_get (registers s3) 7 = Some 256 /\
    run 4 s0 = (Raise SystemExit, s') /\
    py_get (registers s') 7 = Some 256.
Proof. do 3 eexists; by_evaluation. Qed.

(** The decrement of CALL is not masked either: at SP = 0 it leaves -1. *)
Lemma call_leaves_sp_negative :
  exists s0 s2,
    boot call_sp_ls8 = (Ok tt, s0) /\
    run 2 s0 = (Ok tt, s2) /\
    py_get (registers s2) 7 = Some (-1).
Proof. do 2 eexists; by_evaluation. Qed.

(** The same without any instruction naming register 7: a subroutine that
    calls itself brings SP from 0xF4 down to 0 and then to -1. *)
Lemma recursion_leaves_sp_negative :
  exists s0 s1 s2,
    boot recursion_ls8 = (Ok tt, s0) /\
    run 246 s0 = (Ok tt, s1) /\ py_get (registers s1) 7 = Some 0 /\
    run 247 s0 = (Ok tt, s2) /\ py_get (registers s2) 7 = Some (-1).
Proof. do 3 eexists; by_evaluation. Qed.

(** ** PUSH and POP *)

Lemma land_0xFF_small x : 0 <= x <= 255 -> Z.land x 0xFF = x.
Proof.
  intros H. change (Z.land x 0xFF) with (Z.land x (Z.ones 8)).
  rewrite Z.land_ones by lia.
  apply Z.mod_small. change (2 ^ 8) with 256. lia.
Qed.

Lemma land_0xFF_range x : 0 <= Z.land x 0xFF <= 255.
Proof.
  change (Z.land x 0xFF) with (Z.land x (Z.ones 8)). rewrite Z.land_ones by lia.
  change (2 ^ 8) with 256. pose proof (Z.mod_pos_bound x 256 ltac:(lia)). lia.
Qed.

(** The first four statements of [push]: afterwards register 7 holds the
    decremented stack pointer masked to eight bits. *)
Lemma push_sp_update s sp regs1 :
  py_get (registers s) 7 = Some sp ->
  py_set (registers s) 7 (Z.land (sp - 1) 0xFF) = Some regs1 ->
  push s
  = (let* p := gets pc in
     let* reg_num := ram_read (p + 1) in
     let* value := reg_read reg_num in
     let* address_to_push_to := get_sp in
     ram_write address_to_push_to value) (set_registers s regs1).
Proof.
  intros Hsp Hregs1. unfold push, get_sp, put_sp.
  destruct (proj1 (py_get_set_defined (registers s) 7 (sp - 1))) as [regs0 Hregs0];
    [by eexists|].
  rewrite (bind_reg_read 7 _ s sp) by done.
  rewrite (bind_reg_write 7 _ _ s regs0) by done.
  rewrite (bind_reg_read 7 _ _ (sp - 1)) by (by apply (py_get_set_eq (registers s))).
  rewrite (bind_reg_write 7 _ _ _ regs1); [done|].
  cbn [registers set_registers]. by rewrite (py_set_twice (registers s) 7 (sp - 1)).
Qed.

Lemma push_exec s sp regs1 r v ram1 :
  py_get (registers s) 7 = Some sp ->
  py_set (registers s) 7 (Z.land (sp - 1) 0xFF) = Some regs1 ->
  py_get (ram s) (pc s + 1) = Some r ->
  py_get regs1 r = Some v ->
  py_set (ram s) (Z.land (sp - 1) 0xFF) v = Some ram1 ->
  push s = (Ok tt, set_ram (set_registers s regs1) ram1).
Proof.
  intros Hsp Hregs1 Hr Hv Hram1.
  rewrite (push_sp_update s sp regs1) by done. unfold get_sp.
  rewrite bind_gets, (bind_ram_read _ _ _ r), (bind_reg_read _ _ _ v) by done.
  rewrite (bind_reg_read 7 _ _ (Z.land (sp - 1) 0xFF))
    by (by apply (py_get_set_eq (registers s))).
  by apply ram_write_ok.
Qed.

Lemma pop_exec s sp v r regs1 regs2 :
  py_get (registers s) 7 = Some sp ->
  py_get (ram s) sp = Some v ->
  py_get (ram s) (pc s + 1) = Some r ->
  py_set (registers s) r v = Some regs1 ->
  (exists sp1, py_get regs1 7 = Some sp1 /\ py_set regs1 7 (sp1 + 1) = Some regs2) ->
  pop s = (Ok tt, set_registers s regs2).
Proof.
  intros Hsp Hv Hr Hregs1 (sp1 & Hsp1 & Hregs2). unfold pop, get_sp, put_sp.
  rewrite (bind_reg_read 7 _ s sp), (bind_ram_read _ _ _ v) by done.
  rewrite bind_gets, (bind_ram_read _ _ _ r) by done.
  rewrite (bind_reg_write r _ _ s regs1) by done.
  rewrite (bind_reg_read 7 _ _ sp1) by done.
  by rewrite (reg_write_ok _ 7 _ regs2).
Qed.

(** Whatever PUSH does next, and whether it returns or raises, it leaves
    the stack pointer between 0 and 255. *)
Lemma push_sp_in_range s sp :
  py_get (registers s) 7 = Some sp ->
  exists sp',
    py_get (registers (snd (push s))) 7 = Some sp' /\ 0 <= sp' <= 255.
Proof.
  intros Hsp.
  destruct (proj1 (py_get_set_defined (registers s) 7 (Z.land (sp - 1) 0xFF)))
    as [regs1 Hregs1]; [by eexists|].
  exists (Z.land (sp - 1) 0xFF). split; [|apply land_0xFF_range].
  rewrite (push_sp_update s sp regs1) by done.
  set (t := set_registers s regs1).
  assert (py_get (registers t) 7 = Some (Z.land (sp - 1) 0xFF)) as Ht
    by (by apply (py_get_set_eq (registers s))).
  rewrite bind_gets.
  destruct (py_get (ram t) (pc t + 1)) as [r|] eqn:Hr;
    [rewrite (bind_ram_read _ _ _ r) by done
    |by rewrite (bind_raise _ _ t IndexError t) by (by apply ram_read_raise)].
  destruct (py_get (registers t) r) as [v|] eqn:Hv;
    [rewrite (bind_reg_read _ _ _ v) by done
    |by rewrite (bind_raise _ _ t IndexError t) by (by apply reg_read_raise)].
  unfold get_sp. rewrite (bind_reg_read 7 _ _ (Z.land (sp - 1) 0xFF)) by done.
  destruct (py_set (ram t) (Z.land (sp - 1) 0xFF) v) as [ram1|] eqn:Hw.
  - by rewrite (ram_write_ok _ _ _ ram1).
  - by rewrite ram_write_raise.
Qed.

(** PUSH R0 with the operand byte 8 in place of a register number. *)
Definition push_bad_operand_ls8 : list Z :=
  [ 69; 8 ].        (* 01000101 PUSH, operand 8 *)

(** C10, as stated, fails for PUSH: on a fresh machine, PUSH with operand
    byte 8 raises [IndexError], but by then register 7 has been read and
    written: it holds 0xF3 instead of 0xF4. *)
Lemma push_bad_operand_writes_sp :
  exists s0 s',
    boot push_bad_operand_ls8 = (Ok tt, s0) /\
    step s0 = (Raise IndexError, s') /\
    py_get (registers s0) 7 = Some 0xF4 /\
    py_get (registers s') 7 = Some 0xF3 /\
    registers s' <> registers s0.
Proof.
  do 2 eexists. by_evaluation. vm_compute. discriminate.
Qed.

(** C10, amended: PUSH and POP subscript the register file with the raw
    operand byte read at [pc + 1].  When that byte is 8 or greater the
    subscript is outside the eight registers, for reading and for writing,
    and the instruction raises [IndexError] without any register having been
    read or written through the operand.  POP leaves the whole machine state
    as it was; PUSH has by then replaced register 7 by the decremented stack
    pointer masked to eight bits, and leaves every other register, memory,
    flags and [pc] as they were. *)
Theorem push_pop_operand_out_of_range s sp op :
  length (registers s) = 8%nat ->
  py_get (registers s) 7 = Some sp ->
  py_get (ram s) (pc s + 1) = Some op ->
  8 <= op ->
  py_get (registers s) op = None /\
  (forall v, py_set (registers s) op v = None) /\
  pop s = (Raise IndexError, s) /\
  push s = (Raise IndexError,
            set_registers s (<[7%nat := Z.land (sp - 1) 0xFF]> (registers s))).
Proof.
  intros Hlen Hsp Hop Hge.
  assert (py_get (registers s) op = None) as Hget
    by (apply py_get_high; rewrite Hlen; simpl; lia).
  assert (forall v, py_set (registers s) op v = None) as Hset
    by (intros v; apply py_set_high; rewrite Hlen; simpl; lia).
  split; [done|]. split; [done|]. split.
  - unfold pop, get_sp. rewrite (bind_reg_read 7 _ s sp) by done.
    destruct (py_get (ram s) sp) as [v|] eqn:Hv.
    + rewrite (bind_ram_read _ _ _ v), bind_gets, (bind_ram_read _ _ _ op) by done.
      apply bind_raise. by apply reg_write_raise.
    + apply bind_raise. by apply ram_read_raise.
  - rewrite (push_sp_update s sp (<[7%nat := Z.land (sp - 1) 0xFF]> (registers s)));
      [|done|apply py_set_nonneg; rewrite Hlen; simpl; lia].
    rewrite bind_gets, (bind_ram_read _ _ _ op) by done.
    apply bind_raise. apply reg_read_raise.
    cbn [registers set_registers]. apply py_get_high.
    rewrite length_insert, Hlen. simpl; lia.
Qed.

Lemma push_pop_operand_out_of_range_witness :
  pop (snd (boot push_bad_operand_ls8))
  = (Raise IndexError, snd (boot push_bad_operand_ls8)).
Proof.
  exact (proj1 (proj2 (proj2
    (push_pop_operand_out_of_range (snd (boot push_bad_operand_ls8)) 0xF4 8
       eq_refl eq_refl eq_refl ltac:(lia))))).
Defined.

(** ** PUSH followed by POP *)

Lemma py_get_defined_length (l l' : list Z) i :
  length l = length l' -> is_Some (py_get l i) -> is_Some (py_get l' i).
Proof.
  intros Hlen. unfold py_get. rewrite <- Hlen.
  destruct (py_index _ i) as [n|] eqn:E; [|intros [? ?]; discriminate].
  intros _. apply py_index_lt in E. apply lookup_lt_is_Some. lia.
Qed.

(** LDI R7,0; PUSH R0; POP R0; HLT *)
Definition push_at_zero_ls8 : list Z :=
  [ 130; 7; 0;      (* 10000010 LDI R7,0 *)
    69; 0;          (* 01000101 PUSH R0 *)
    70; 0;          (* 01000110 POP R0 *)
    1 ].            (* 00000001 HLT *)

(** ADD R7,R7; PUSH R0; POP R0; HLT *)
Definition push_high_sp_ls8 : list Z :=
  [ 160; 7; 7;      (* 10100000 ADD R7,R7 *)
    69; 0;          (* 01000101 PUSH R0 *)
    70; 0;          (* 01000110 POP R0 *)
    1 ].            (* 00000001 HLT *)

(** LDI R7,9; LDI R0,1; PUSH R0; POP R0; HLT: the stack cell SP - 1 = 8 is
    the cell that holds the POP opcode. *)
Definition push_over_code_ls8 : list Z :=
  [ 130; 7; 9;      (* 0: 10000010 LDI R7,9 *)
    130; 0; 1;      (* 3: 10000010 LDI R0,1 *)
    69; 0;          (* 6: 01000101 PUSH R0 *)
    70; 0;          (* 8: 01000110 POP R0 *)
    1 ].            (* 10: 00000001 HLT *)

(** C5, as stated, fails.  With SP = 0 before the PUSH, PUSH wraps SP to 255,
    which is no address of the 255-cell memory: it raises [IndexError], the
    POP is never reached and SP stays at 255.  With SP = 488 before the PUSH
    (outside 0-255), PUSH masks SP to 231 and POP leaves it at 232.  With
    SP = 9 and the POP opcode in cell 8, PUSH overwrites that opcode with
    the value 1 (HLT): the machine halts with SP at 8. *)
Lemma push_pop_does_not_restore_sp :
  (exists s0 s1 s',
      boot push_at_zero_ls8 = (Ok tt, s0) /\
      run 1 s0 = (Ok tt, s1) /\ py_get (registers s1) 7 = Some 0 /\
      run 3 s0 = (Raise IndexError, s') /\ py_get (registers s') 7 = Some 255) /\
  (exists s0 s1 s3,
      boot push_high_sp_ls8 = (Ok tt, s0) /\
      run 1 s0 = (Ok tt, s1) /\ py_get (registers s1) 7 = Some 488 /\
      run 3 s0 = (Ok tt, s3) /\ py_get (registers s3) 7 = Some 232) /\
  (exists s0 s2 s',
      boot push_over_code_ls8 = (Ok tt, s0) /\
      run 2 s0 = (Ok tt, s2) /\ py_get (registers s2) 7 = Some 9 /\
      run 4 s0 = (Raise SystemExit, s') /\ py_get (registers s') 7 = Some 8).
Proof. split; [|split]; do 3 eexists; by_evaluation. Qed.

(** C5, amended: for every register r and every machine state whose SP is
    between 1 and 255, with PUSH r at [pc] and POP r right after it, and the
    stack cell SP - 1 not one of the four cells that hold these two
    instructions, the two instructions run without an exception; afterwards
    the register file is as before the PUSH, so register r holds its original
    value and SP its value from before the PUSH, and [pc] is past both
    instructions. *)
Theorem push_pop_restores s sp r v :
  length (ram s) = 255%nat ->
  py_get (registers s) 7 = Some sp ->
  1 <= sp <= 255 ->
  (forall j, pc s <= j <= pc s + 3 -> py_index 255 j <> py_index 255 (sp - 1)) ->
  py_get (ram s) (pc s) = Some 69 ->          (* 01000101 PUSH *)
  py_get (ram s) (pc s + 1) = Some r ->
  py_get (ram s) (pc s + 2) = Some 70 ->      (* 01000110 POP *)
  py_get (ram s) (pc s + 3) = Some r ->
  py_get (registers s) r = Some v ->
  exists s1 s2,
    step s = (Ok tt, s1) /\
    py_get (registers s1) 7 = Some (sp - 1) /\
    py_get (ram s1) (sp - 1) = py_get (registers s1) r /\
    step s1 = (Ok tt, s2) /\
    registers s2 = registers s /\
    py_get (registers s2) r = Some v /\
    py_get (registers s2) 7 = Some sp /\
    pc s2 = pc s + 4.
Proof.
  intros Hlen Hsp Hrange Hdisj Hpush Hr Hpop Hr' Hv.
  assert (Z.land (sp - 1) 0xFF = sp - 1) as Hland by (apply land_0xFF_small; lia).
  destruct (proj1 (py_get_set_defined (registers s) 7 (sp - 1))) as [regs1 Hregs1];
    [by eexists|].
  destruct (py_get_defined_length (registers s) regs1 r) as [v1 Hv1];
    [symmetry; by apply (py_set_length _ 7 (sp - 1)) | by eexists |].
  assert (py_set (ram s) (sp - 1) v1 = Some (<[Z.to_nat (sp - 1) := v1]> (ram s)))
    as Hram1 by (apply py_set_nonneg; rewrite Hlen; simpl; lia).
  set (ram1 := <[Z.to_nat (sp - 1) := v1]> (ram s)) in *.
  assert (forall j, pc s <= j <= pc s + 3 -> py_get ram1 j = py_get (ram s) j) as Hcode.
  { intros j Hj. apply (py_get_set_ne _ (sp - 1) j v1); [done|].
    rewrite Hlen. intros E. by apply (Hdisj j). }
  (* the PUSH *)
  set (sA := set_ram (set_registers (set_ir s (Z.land 69 0x3F)) regs1) ram1).
  assert (step s = (Ok tt, set_pc sA (pc s + 2))) as Hstep1.
  { rewrite (step_dispatch s 69 push Hpush) by done.
    rewrite (bind_ok _ _ _ tt sA).
    - rewrite (advance_moves sA 69); try done.
      + f_equal. cbn [pc sA set_ram set_registers set_ir]. f_equal.
        change (Z.shiftr 69 6) with 1. lia.
      + cbn [ram pc sA set_ram set_registers set_ir]. rewrite Hcode by lia. done.
    - apply (push_exec _ sp regs1 r v1); try done; by rewrite Hland. }
  (* the POP *)
  set (s1 := set_pc sA (pc s + 2)) in *.
  set (sB := set_registers (set_ir s1 (Z.land 70 0x3F)) (registers s)).
  assert (py_get (ram s1) (pc s1) = Some 70) as Hpop1
    by (cbn [ram pc s1 sA set_pc set_ram set_registers set_ir];
        rewrite Hcode by lia; done).
  assert (step s1 = (Ok tt, set_pc sB (pc s + 4))) as Hstep2.
  { rewrite (step_dispatch s1 70 pop Hpop1) by done.
    rewrite (bind_ok _ _ _ tt sB).
    - rewrite (advance_moves sB 70); try done.
      f_equal. cbn [pc sB s1 sA set_pc set_ram set_registers set_ir]. f_equal.
      change (Z.shiftr 70 6) with 1. lia.
    - apply (pop_exec _ (sp - 1) v1 r regs1).
      + by apply (py_get_set_eq (registers s)).
      + by apply (py_get_set_eq (ram s)).
      + cbn [ram pc s1 sA set_pc set_ram set_registers set_ir].
        replace (pc s + 2 + 1) with (pc s + 3) by lia. rewrite Hcode by lia. done.
      + by apply py_set_same.
      + exists (sp - 1). split; [by apply (py_get_set_eq (registers s))|].
        rewrite (py_set_twice (registers s) 7 (sp - 1)) by done.
        replace (sp - 1 + 1) with sp by lia. by apply py_set_same. }
  exists s1, (set_pc sB (pc s + 4)).
  split; [done|]. split; [by apply (py_get_set_eq (registers s))|].
  split; [cbn [ram registers s1 sA set_pc set_ram set_registers set_ir];
          rewrite Hv1; by apply (py_get_set_eq (ram s))|].
  split; [done|]. by repeat split.
Qed.

(** LDI R0,5; PUSH R0; POP R0; HLT, after the LDI has run. *)
Definition push_pop_ls8 : list Z :=
  [ 130; 0; 5;      (* 10000010 LDI R0,5 *)
    69; 0;          (* 01000101 PUSH R0 *)
    70; 0;          (* 01000110 POP R0 *)
    1 ].            (* 00000001 HLT *)

Definition push_pop_state : CPU :=
  Eval vm_compute in snd (run 1 (snd (boot push_pop_ls8))).

Lemma push_pop_restores_witness :
  exists s1 s2,
    step push_pop_state = (Ok tt, s1) /\
    step s1 = (Ok tt, s2) /\
    registers s2 = registers push_pop_state /\
    py_get (registers s2) 0 = Some 5 /\
    py_get (registers s2) 7 = Some 0xF4.
Proof.
  destruct (push_pop_restores push_pop_state 0xF4 0 5)
    as (s1 & s2 & H1 & _ & _ & H2 & H3 & H4 & H5 & _);
    try reflexivity; try (split; vm_compute; discriminate).
  - intros j Hj. change (pc push_pop_state) with 3 in Hj.
    rewrite (py_index_nonneg 255 j), (py_index_nonneg 255 (0xF4 - 1)) by lia.
    intros [= E]. lia.
  - exists s1, s2. repeat split; assumption.
Defined.

(** ** CALL and RET *)

Lemma run_app n m s s' : run n s = (Ok tt, s') -> run (n + m) s = run m s'.
Proof.
  revert s. induction n as [|n IH]; intros s H.
  - by injection H as ->.
  - change (run (S n + m)) with (bind step (fun _ => run (n + m))).
    change (run (S n)) with (bind step (fun _ => run n)) in H.
    destruct (step s) as [[[]|e1] s1] eqn:Hstep.
    + rewrite (bind_ok _ _ _ _ _ Hstep) in H. rewrite (bind_ok _ _ _ _ _ Hstep).
      by apply IH.
    + rewrite (bind_raise _ _ _ _ _ Hstep) in H. discriminate.
Qed.

Lemma call_exec s sp regs1 ram1 r target :
  py_get (registers s) 7 = Some sp ->
  py_set (registers s) 7 (sp - 1) = Some regs1 ->
  py_set (ram s) (sp - 1) (pc s + 2) = Some ram1 ->
  py_get ram1 (pc s + 1) = Some r ->
  py_get regs1 r = Some target ->
  call s = (Ok tt, set_pc (set_ram (set_registers s regs1) ram1) target).
Proof.
  intros Hsp Hregs1 Hram1 Hr Ht. unfold call, get_sp, put_sp.
  rewrite bind_gets. cbv zeta.
  rewrite (bind_reg_read 7 _ s sp), (bind_reg_write 7 _ _ s regs1) by done.
  rewrite (bind_reg_read 7 _ _ (sp - 1)) by (by apply (py_get_set_eq (registers s))).
  rewrite (bind_ram_write _ _ _ _ ram1) by done.
  by rewrite bind_gets, (bind_ram_read _ _ _ r), (bind_reg_read _ _ _ target).
Qed.

Lemma ret_exec s sp return_addr regs1 :
  py_get (registers s) 7 = Some sp ->
  py_get (ram s) sp = Some return_addr ->
  py_set (registers s) 7 (sp + 1) = Some regs1 ->
  ret s = (Ok tt, set_pc (set_registers s regs1) return_addr).
Proof.
  intros Hsp Hra Hregs1. unfold ret, get_sp, put_sp.
  rewrite (bind_reg_read 7 _ s sp), (bind_ram_read _ _ _ return_addr) by done.
  by rewrite (bind_reg_read 7 _ s sp), (bind_reg_write 7 _ _ s regs1).
Qed.

(** C6: a CALL at address p, with SP = sp, stores p + 2 in the stack cell
    sp - 1, leaves SP at sp - 1 and transfers control to the address held in
    the operand register.  If the subroutine then runs for any number n of
    loop iterations to a RET, with SP again at sp - 1 and that cell still
    holding p + 2, the RET puts exactly p + 2 into [pc], with no advance
    after it, and SP is back at sp. *)
Theorem call_ret_returns_after_call s op sp regs1 ram1 r target :
  py_get (ram s) (pc s) = Some op ->
  Z.land op 0x3F = instructions.CALL ->
  py_get (registers s) 7 = Some sp ->
  py_set (registers s) 7 (sp - 1) = Some regs1 ->
  py_set (ram s) (sp - 1) (pc s + 2) = Some ram1 ->
  py_get ram1 (pc s + 1) = Some r ->
  py_get regs1 r = Some target ->
  exists s1,
    step s = (Ok tt, s1) /\
    pc s1 = target /\
    py_get (registers s1) 7 = Some (sp - 1) /\
    py_get (ram s1) (sp - 1) = Some (pc s + 2) /\
    forall n s2 op2,
      run n s1 = (Ok tt, s2) ->
      py_get (registers s2) 7 = Some (sp - 1) ->
      py_get (ram s2) (sp - 1) = Some (pc s + 2) ->
      py_get (ram s2) (pc s2) = Some op2 ->
      Z.land op2 0x3F = instructions.RET ->
      exists s3,
        step s2 = (Ok tt, s3) /\
        run (1 + n + 1) s = (Ok tt, s3) /\
        pc s3 = pc s + 2 /\
        py_get (registers s3) 7 = Some sp.
Proof.
  intros Hop Hk Hsp Hregs1 Hram1 Hr Ht.
  set (s0 := set_ir s (Z.land op 0x3F)).
  set (s1 := set_pc (set_ram (set_registers s0 regs1) ram1) target).
  assert (step s = (Ok tt, s1)) as Hstep1.
  { rewrite (step_dispatch s op call Hop) by (by rewrite Hk).
    rewrite (bind_ok _ _ _ tt s1) by (by apply (call_exec s0 sp regs1 ram1 r)).
    apply advance_skips. left. exact Hk. }
  exists s1. split; [done|]. split; [done|].
  split; [by apply (py_get_set_eq (registers s))|].
  split; [by apply (py_get_set_eq (ram s))|].
  intros n s2 op2 Hrun Hsp2 Hra Hop2 Hk2.
  destruct (proj1 (py_get_set_defined (registers s2) 7 (sp - 1 + 1))) as [regs3 Hregs3];
    [by eexists|].
  set (s2' := set_ir s2 (Z.land op2 0x3F)).
  set (s3 := set_pc (set_registers s2' regs3) (pc s + 2)).
  assert (step s2 = (Ok tt, s3)) as Hstep2.
  { rewrite (step_dispatch s2 op2 ret Hop2) by (by rewrite Hk2).
    rewrite (bind_ok _ _ _ tt s3) by (by apply (ret_exec s2' (sp - 1))).
    apply advance_skips. right. left. exact Hk2. }
  exists s3. split; [done|]. split; [|split; [done|]].
  - change (run (1 + n + 1) s) with (bind step (fun _ => run (n + 1)) s).
    rewrite (bind_ok _ _ _ _ _ Hstep1), (run_app n 1 s1 s2 Hrun).
    change (run 1 s2) with (bind step (fun _ => pure tt) s2).
    by rewrite (bind_ok _ _ _ _ _ Hstep2).
  - cbn [registers s3 set_pc set_registers].
    replace sp with (sp - 1 + 1) at 1 by lia.
    by apply (py_get_set_eq (registers s2) 7).
Qed.

(** LDI R1,6; CALL R1; HLT; and the subroutine PRN R0; RET at address 6.
    [call_state] is the machine after the LDI, about to run the CALL. *)
Definition call_ls8 : list Z :=
  [ 130; 1; 6;      (* 0: 10000010 LDI R1,6 *)
    80; 1;          (* 3: 01010000 CALL R1 *)
    1;              (* 5: 00000001 HLT *)
    71; 0;          (* 6: 01000111 PRN R0 *)
    17 ].           (* 8: 00010001 RET *)

Definition call_state : CPU :=
  Eval vm_compute in snd (run 1 (snd (boot call_ls8))).

Lemma call_ret_returns_after_call_witness :
  exists s3,
    run 3 call_state = (Ok tt, s3) /\
    pc s3 = 5 /\
    py_get (registers s3) 7 = Some 0xF4.
Proof.
  destruct (call_ret_returns_after_call call_state 80 0xF4
              (<[7%nat := 0xF3]> (registers call_state))
              (<[243%nat := 5]> (ram call_state)) 1 6
              eq_refl eq_refl eq_refl eq_refl eq_refl eq_refl eq_refl)
    as (s1 & Hs1 & _ & _ & _ & Hret).
  assert (step call_state = (Ok tt, snd (step call_state))) as Hc
    by (vm_compute; reflexivity).
  rewrite Hc in Hs1. injection Hs1 as <-.
  destruct (Hret 1%nat (snd (run 1 (snd (step call_state)))) 17)
    as (s3 & _ & Hrun & Hpc & Hsp);
    try (vm_compute; reflexivity).
  exists s3. split; [exact Hrun | split; [exact Hpc | exact Hsp]].
Defined.

(** * Further properties of the machine *)

(** ** What every instruction preserves *)

(** An opcode without a handler: the loop body raises right after [ir] has
    been assigned. *)
Lemma step_no_handler s op :
  py_get (ram s) (pc s) = Some op ->
  dict_get branch_table (Z.land op 0x3F) = None ->
  step s = (Raise (KeyError (Z.land op 0x3F)), set_ir s (Z.land op 0x3F)).
Proof.
  intros Hop Hnone. unfold step.
  rewrite bind_gets, (bind_ram_read _ _ _ op), bind_modify, bind_gets by done.
  apply bind_raise. unfold handler_for. cbn [ir set_ir]. by rewrite Hnone.
Qed.

(** A fetch outside memory: the loop body raises before anything changes. *)
Lemma step_fetch_raise s :
  py_get (ram s) (pc s) = None -> step s = (Raise IndexError, s).
Proof.
  intros Hop. unfold step. rewrite bind_gets.
  apply bind_raise. by apply ram_read_raise.
Qed.

Lemma dict_get_In {V} (d : list (Z * V)) k v :
  dict_get d k = Some v -> In v (map snd d).
Proof.
  induction d as [|[k' v'] d IH]; [discriminate|].
  cbn [dict_get map snd]. destruct (k' =? k).
  - intros [= ->]. by left.
  - intros H. right. by apply IH.
Qed.

(** CMP changes nothing but [fl]. *)
Lemma alu_cmp_only_fl a b s : exists f, snd (alu "CMP" a b s) = set_fl s f.
Proof.
  destruct (py_get (registers s) a) as [va|] eqn:Ha;
    [destruct (py_get (registers s) b) as [vb|] eqn:Hb|].
  - exists (cmp_flags (fl s) va vb). by rewrite (alu_cmp_exec s a b va vb).
  - exists (fl s). rewrite alu_cmp_bad_operand by (by right). by destruct s.
  - exists (fl s). rewrite alu_cmp_bad_operand by (by left). by destruct s.
Qed.

Section Frame.
Variable R : CPU -> CPU -> Prop.
Hypothesis R_refl : forall s, R s s.
Hypothesis R_trans : forall s1 s2 s3, R s1 s2 -> R s2 s3 -> R s1 s3.
Hypothesis R_ram :
  forall s a v m', py_set (ram s) a v = Some m' -> R s (set_ram s m').
Hypothesis R_registers :
  forall s i v r', py_set (registers s) i v = Some r' -> R s (set_registers s r').
Hypothesis R_pc : forall s v, R s (set_pc s v).
Hypothesis R_ir : forall s v, R s (set_ir s v).
Hypothesis R_print : forall s line, R s (set_stdout s (stdout s ++ [line])).
Hypothesis R_cmp : forall a b s, R s (snd (alu "CMP" a b s)).

(** [m] relates every state to the state it leaves, returning or raising. *)
Definition preserves {A} (m : M A) : Prop := forall s, R s (snd (m s)).

Lemma preserves_bind {A B} (m : M A) (k : A -> M B) :
  preserves m -> (forall a, preserves (k a)) -> preserves (bind m k).
Proof.
  intros Hm Hk s. unfold bind. specialize (Hm s).
  destruct (m s) as [[a|e] s']; cbn [snd] in *; [|done].
  eapply R_trans; [exact Hm | apply Hk].
Qed.

Lemma preserves_pure {A} (a : A) : preserves (pure a).
Proof. intros s. apply R_refl. Qed.

Lemma preserves_raise {A} e : preserves (@raise A e).
Proof. intros s. apply R_refl. Qed.

Lemma preserves_gets {A} (f : CPU -> A) : preserves (gets f).
Proof. intros s. apply R_refl. Qed.

Lemma preserves_subscript {A} (o : option A) : preserves (subscript o).
Proof. destruct o; [apply preserves_pure | apply preserves_raise]. Qed.

Lemma preserves_ram_read a : preserves (ram_read a).
Proof.
  apply preserves_bind; [apply preserves_gets | intros; apply preserves_subscript].
Qed.

Lemma preserves_reg_read i : preserves (reg_read i).
Proof.
  apply preserves_bind; [apply preserves_gets | intros; apply preserves_subscript].
Qed.

Lemma preserves_ram_write a v : preserves (ram_write a v).
Proof.
  intros s. destruct (py_set (ram s) a v) as [m'|] eqn:E.
  - rewrite (ram_write_ok s a v m' E). by apply (R_ram s a v).
  - rewrite (ram_write_raise s a v E). apply R_refl.
Qed.

Lemma preserves_reg_write i v : preserves (reg_write i v).
Proof.
  intros s. destruct (py_set (registers s) i v) as [r'|] eqn:E.
  - rewrite (reg_write_ok s i v r' E). by apply (R_registers s i v).
  - rewrite (reg_write_raise s i v E). apply R_refl.
Qed.

Lemma preserves_jump v : preserves (modify (fun s => set_pc s v)).
Proof. intros s. apply R_pc. Qed.

Lemma preserves_alu_add a b : preserves (alu "ADD" a b).
Proof.
  unfold alu. change (String.eqb "ADD" "ADD") with true. cbv iota.
  apply preserves_bind; [apply preserves_reg_read | intros va].
  apply preserves_bind; [apply preserves_reg_read | intros vb].
  apply preserves_reg_write.
Qed.

Ltac frame :=
  repeat first
    [ apply preserves_pure | apply preserves_raise | apply preserves_gets
    | apply preserves_ram_read | apply preserves_reg_read
    | apply preserves_ram_write | apply preserves_reg_write
    | apply preserves_jump | apply preserves_alu_add
    | exact (R_cmp _ _)
    | apply preserves_bind; [|intros ?]
    | match goal with
      | |- preserves (if ?c then _ else _) => destruct c
      end ].

Lemma preserves_handlers : Forall preserves (map snd branch_table).
Proof.
  cbn [map snd branch_table].
  repeat (apply Forall_cons_2; [|]); [..|apply Forall_nil_2].
  - unfold hlt. frame.
  - unfold ldi. frame.
  - unfold push, get_sp, put_sp. frame.
  - unfold pop, get_sp, put_sp. frame.
  - unfold prn. frame. intros s. apply R_print.
  - unfold call, get_sp, put_sp. cbv zeta. frame.
  - unfold ret, get_sp, put_sp. frame.
  - unfold jmp. frame.
  - unfold jeq. frame.
  - unfold jne. frame.
  - unfold cmp. frame.
  - unfold add. frame.
  - unfold mul. frame.
Qed.

Lemma preserves_advance : preserves advance.
Proof. unfold advance. frame. Qed.

Lemma preserves_step : preserves step.
Proof.
  intros s. destruct (py_get (ram s) (pc s)) as [op|] eqn:Hop.
  - destruct (dict_get branch_table (Z.land op 0x3F)) as [h|] eqn:Hh.
    + rewrite (step_dispatch s op h Hop Hh).
      eapply R_trans; [apply R_ir|].
      apply preserves_bind; [|intros; apply preserves_advance].
      pose proof preserves_handlers as Hall.
      rewrite Forall_forall in Hall. apply Hall.
      apply list_elem_of_In. by apply (dict_get_In _ (Z.land op 0x3F)).
    + rewrite (step_no_handler s op Hop Hh). apply R_ir.
  - rewrite (step_fetch_raise s Hop). apply R_refl.
Qed.

Lemma preserves_run n : preserves (run n).
Proof.
  induction n as [|n IH]; [apply preserves_pure|].
  apply preserves_bind; [apply preserves_step | intros; exact IH].
Qed.

Lemma preserves_load_from program address : preserves (load_from program address).
Proof.
  revert address. induction program as [|b rest IH]; intros address;
    [apply preserves_pure|].
  apply preserves_bind; [apply preserves_ram_write | intros; apply IH].
Qed.
End Frame.

(** ** Invariants of a run *)

(** The sizes of memory and of the register file. *)
Definition same_shape (s s' : CPU) : Prop :=
  length (ram s') = length (ram s) /\
  length (registers s') = length (registers s).

Lemma same_shape_run n : preserves same_shape (run n).
Proof.
  apply preserves_run; unfold same_shape; cbn [ram registers set_ram
    set_registers set_pc set_ir set_stdout]; try done.
  - intros s1 s2 s3 [H1 H2] [H3 H4]. split; congruence.
  - intros s a v m' H. split; [by apply (py_set_length _ a v) | done].
  - intros s i v r' H. split; [done | by apply (py_set_length _ i v)].
  - intros a b s. destruct (alu_cmp_only_fl a b s) as [f ->]. done.
Qed.

Lemma same_shape_load program address : preserves same_shape (load_from program address).
Proof.
  apply preserves_load_from; unfold same_shape; cbn [ram registers set_ram]; try done.
  - intros s1 s2 s3 [H1 H2] [H3 H4]. split; congruence.
  - intros s a v m' H. split; [by apply (py_set_length _ a v) | done].
Qed.

(** No instruction and no exception ever changes the number of memory cells
    or of registers: whatever program is loaded into a fresh machine and
    however long it runs, memory has 255 cells and the register file 8. *)
Theorem machine_shape_invariant program n :
  length (ram (snd (run n (snd (boot program))))) = 255%nat /\
  length (registers (snd (run n (snd (boot program))))) = 8%nat.
Proof.
  destruct (same_shape_run n (snd (boot program))) as [H1 H2].
  destruct (same_shape_load program 0 init) as [H3 H4].
  unfold boot in *. rewrite H1, H2, H3, H4. done.
Qed.

(** Output is only ever appended to: the lines written before a run are a
    prefix of the lines written after it, whatever the run does. *)
Theorem run_only_appends_output n s :
  exists lines, stdout (snd (run n s)) = stdout s ++ lines.
Proof.
  apply (preserves_run (fun s s' => exists lines, stdout s' = stdout s ++ lines));
    cbn [stdout set_ram set_registers set_pc set_ir set_stdout].
  - intros t. exists []. by rewrite app_nil_r.
  - intros s1 s2 s3 [l1 H1] [l2 H2]. exists (l1 ++ l2). by rewrite H2, H1, app_assoc.
  - intros t a v m' _. exists []. by rewrite app_nil_r.
  - intros t i v r' _. exists []. by rewrite app_nil_r.
  - intros t v. exists []. by rewrite app_nil_r.
  - intros t v. exists []. by rewrite app_nil_r.
  - intros t line. by exists [line].
  - intros a b t. destruct (alu_cmp_only_fl a b t) as [f ->].
    exists []. by rewrite app_nil_r.
Qed.

(** The fields [mar] and [mdr] are set by [__init__] and by nothing else. *)
Theorem run_never_touches_mar_mdr n s :
  mar (snd (run n s)) = mar s /\ mdr (snd (run n s)) = mdr s.
Proof.
  apply (preserves_run (fun s s' => mar s' = mar s /\ mdr s' = mdr s));
    cbn [mar mdr set_ram set_registers set_pc set_ir set_stdout]; try done.
  - intros s1 s2 s3 [H1 H2] [H3 H4]. split; congruence.
  - intros a b t. destruct (alu_cmp_only_fl a b t) as [f ->]. done.
Qed.

(** The flags hold 0 (nothing compared yet) or exactly one of Equal = 1,
    Greater = 2, Less = 4. *)
Definition fl_ok (f : Z) : Prop := f = 0 \/ f = 1 \/ f = 2 \/ f = 4.

Lemma cmp_flags_exact f va vb :
  0 <= f <= 7 ->
  cmp_flags f va vb = if va =? vb then 1 else if va >? vb then 2 else 4.
Proof.
  intros Hf. unfold cmp_flags. rewrite Z.gtb_ltb.
  assert (f = 0 \/ f = 1 \/ f = 2 \/ f = 3 \/ f = 4 \/ f = 5 \/ f = 6 \/ f = 7)
    as Hcases by lia.
  destruct (Z.eqb_spec va vb), (Z.ltb_spec vb va), (Z.ltb_spec va vb);
    try lia;
    destruct Hcases as [->|[->|[->|[->|[->|[->|[->| ->]]]]]]]; reflexivity.
Qed.

(** From flags that are 0 or a single comparison bit, no run ever produces
    anything else: CMP is the only instruction that writes [fl], and it
    leaves exactly one of the three bits. *)
Theorem flags_invariant n s :
  fl_ok (fl s) -> fl_ok (fl (snd (run n s))).
Proof.
  apply (preserves_run (fun s s' => fl_ok (fl s) -> fl_ok (fl s')));
    cbn [fl set_ram set_registers set_pc set_ir set_stdout]; try done.
  - intros s1 s2 s3 H1 H2 H. auto.
  - intros a b t Hok.
    destruct (py_get (registers t) a) as [va|] eqn:Ha;
      [destruct (py_get (registers t) b) as [vb|] eqn:Hb|].
    + rewrite (alu_cmp_exec t a b va vb) by done. cbn [snd fl set_fl].
      rewrite cmp_flags_exact by (unfold fl_ok in Hok; lia).
      unfold fl_ok. destruct (va =? vb); [tauto|]. destruct (va >? vb); tauto.
    + by rewrite alu_cmp_bad_operand by (by right).
    + by rewrite alu_cmp_bad_operand by (by left).
Qed.

Lemma flags_invariant_witness :
  fl_ok (fl (snd (run 4 (snd (boot jeq_ls8))))).
Proof. apply (flags_invariant 4 (snd (boot jeq_ls8))). left. reflexivity. Defined.

(** ** Memory and register accessors *)

Lemma py_index_None len i :
  0 <= len -> py_index len i = None <-> (i < - len \/ len <= i).
Proof.
  intros Hlen. unfold py_index.
  destruct (Z.leb_spec 0 i), (Z.ltb_spec i len), (Z.leb_spec (- len) i),
    (Z.ltb_spec i 0); cbn [andb]; split; (discriminate || lia || done).
Qed.

Lemma py_get_None l i :
  py_get l i = None <-> (i < - Z.of_nat (length l) \/ Z.of_nat (length l) <= i).
Proof.
  rewrite <- py_index_None by lia. unfold py_get.
  destruct (py_index _ i) as [n|] eqn:E; [|done].
  apply py_index_lt in E. split; [|discriminate].
  intros H. apply lookup_ge_None in H. lia.
Qed.

Lemma py_set_None l i v :
  py_set l i v = None <-> (i < - Z.of_nat (length l) \/ Z.of_nat (length l) <= i).
Proof.
  rewrite <- py_index_None by lia. unfold py_set.
  destruct (py_index _ i); [split; discriminate | done].
Qed.

(** [ram_write] then [ram_read] of the same address returns the value just
    written; every cell that is a different position of the list, and every
    other field of the machine, is as before. *)
Theorem ram_write_then_read s a v :
  is_Some (py_get (ram s) a) ->
  exists m',
    ram_write a v s = (Ok tt, set_ram s m') /\
    ram_read a (set_ram s m') = (Ok v, set_ram s m') /\
    length m' = length (ram s) /\
    forall b,
      py_index (Z.of_nat (length (ram s))) b
      <> py_index (Z.of_nat (length (ram s))) a ->
      ram_read b (set_ram s m') = (fst (ram_read b s), set_ram s m').
Proof.
  intros Ha. destruct (proj1 (py_get_set_defined (ram s) a v) Ha) as [m' Hm'].
  exists m'. split; [by apply ram_write_ok|].
  split; [apply ram_read_ok; by apply (py_get_set_eq (ram s))|].
  split; [by apply (py_set_length _ a v)|].
  intros b Hb.
  assert (py_get m' b = py_get (ram s) b) as Hsame
    by (apply (py_get_set_ne _ a b v); [done | congruence]).
  destruct (py_get (ram s) b) as [w|] eqn:Hw.
  - rewrite (ram_read_ok s b w Hw). apply ram_read_ok. by rewrite <- Hsame in Hw.
  - rewrite (ram_read_raise s b Hw). apply ram_read_raise. by rewrite <- Hsame in Hw.
Qed.

Lemma ram_write_then_read_witness :
  exists m',
    ram_write 0xF3 42 init = (Ok tt, set_ram init m') /\
    ram_read 0xF3 (set_ram init m') = (Ok 42, set_ram init m').
Proof.
  destruct (ram_write_then_read init 0xF3 42) as (m' & H1 & H2 & _).
  - exists 0. reflexivity.
  - exists m'. split; [exact H1 | exact H2].
Defined.

(** Memory has 255 cells, so the addresses that [ram_read] and [ram_write]
    accept are -255 to 254: any other address, 0xFF included, raises
    [IndexError] and changes nothing. *)
Theorem ram_access_out_of_range s a :
  length (ram s) = 255%nat ->
  (ram_read a s = (Raise IndexError, s) <-> (a < -255 \/ 255 <= a)) /\
  (forall v, ram_write a v s = (Raise IndexError, s) <-> (a < -255 \/ 255 <= a)).
Proof.
  intros Hlen.
  pose proof (py_get_None (ram s) a) as Hg. rewrite Hlen in Hg.
  split; [|intros v; pose proof (py_set_None (ram s) a v) as Hs; rewrite Hlen in Hs].
  - rewrite <- Hg. destruct (py_get (ram s) a) as [w|] eqn:Hw.
    + rewrite (ram_read_ok s a w Hw). split; discriminate.
    + by rewrite (ram_read_raise s a Hw).
  - rewrite <- Hs. destruct (py_set (ram s) a v) as [m'|] eqn:Hm.
    + rewrite (ram_write_ok s a v m' Hm). split; discriminate.
    + by rewrite (ram_write_raise s a v Hm).
Qed.

Lemma ram_access_out_of_range_witness :
  ram_read 0xFF init = (Raise IndexError, init).
Proof.
  apply (proj1 (ram_access_out_of_range init 0xFF eq_refl)). right. lia.
Defined.

(** A negative address counts from the end of memory: address [a] between
    -255 and -1 is the same cell as address [255 + a]. *)
Theorem ram_negative_address s a :
  length (ram s) = 255%nat ->
  -255 <= a < 0 ->
  ram_read a s = ram_read (255 + a) s /\
  forall v, ram_write a v s = ram_write (255 + a) v s.
Proof.
  intros Hlen Ha.
  assert (py_index (Z.of_nat (length (ram s))) a
          = py_index (Z.of_nat (length (ram s))) (255 + a)) as Hidx.
  { rewrite Hlen. rewrite (py_index_nonneg _ (255 + a)) by lia.
    unfold py_index.
    replace (0 <=? a) with false by (symmetry; apply Z.leb_gt; lia).
    replace (- Z.of_nat 255 <=? a) with true by (symmetry; apply Z.leb_le; lia).
    replace (a <? 0) with true by (symmetry; apply Z.ltb_lt; lia).
    cbn [andb]. f_equal; lia. }
  split; [|intros v].
  - unfold ram_read. rewrite !bind_gets. unfold py_get. by rewrite Hidx.
  - unfold ram_write. rewrite !bind_gets. unfold py_set. by rewrite Hidx.
Qed.

Lemma ram_negative_address_witness :
  ram_read (-1) init = ram_read (255 + -1) init.
Proof.
  apply (proj1 (ram_negative_address init (-1) eq_refl ltac:(lia))).
Defined.

(** The [sp] property is register 7: a value assigned to it is the value
    read back, and registers 0 to 6 are not affected. *)
Theorem put_sp_then_get_sp s v :
  length (registers s) = 8%nat ->
  exists r',
    put_sp v s = (Ok tt, set_registers s r') /\
    get_sp (set_registers s r') = (Ok v, set_registers s r') /\
    forall i, 0 <= i < 7 -> py_get r' i = py_get (registers s) i.
Proof.
  intros Hlen. exists (<[7%nat := v]> (registers s)).
  assert (py_set (registers s) 7 v = Some (<[7%nat := v]> (registers s))) as Hset
    by (apply py_set_nonneg; rewrite Hlen; simpl; lia).
  split; [by apply reg_write_ok|].
  split; [apply reg_read_ok; by apply (py_get_set_eq (registers s))|].
  intros i Hi. apply (py_get_set_ne _ 7 i v); [done|].
  rewrite Hlen, !py_index_nonneg by (simpl; lia). intros [= E]. lia.
Qed.

Lemma put_sp_then_get_sp_witness :
  exists r',
    put_sp 0x80 init = (Ok tt, set_registers init r') /\
    get_sp (set_registers init r') = (Ok 0x80, set_registers init r').
Proof.
  destruct (put_sp_then_get_sp init 0x80 eq_refl) as (r' & H1 & H2 & _).
  exists r'. split; [exact H1 | exact H2].
Defined.

(** ** Loading a program *)

Lemma load_from_cells program : forall k s,
  (k + length program <= length (ram s))%nat ->
  load_from program (Z.of_nat k) s
  = (Ok tt, set_ram s (take k (ram s) ++ program
                        ++ drop (k + length program) (ram s))).
Proof.
  induction program as [|b rest IH]; intros k s Hfit.
  - cbn [load_from length app]. rewrite Nat.add_0_r, take_drop. by destruct s.
  - cbn [load_from length] in *.
    rewrite (bind_ram_write _ _ _ s (<[k := b]> (ram s)))
      by (rewrite py_set_nonneg by lia; by rewrite Nat2Z.id).
    replace (Z.of_nat k + 1) with (Z.of_nat (S k)) by lia.
    rewrite IH by (cbn [ram set_ram]; rewrite length_insert; lia).
    cbn [ram set_ram]. unfold set_ram at 1 2. cbn [registers pc ir mar mdr fl stdout].
    f_equal. unfold set_ram. f_equal.
    rewrite (take_S_r _ k b) by (apply list_lookup_insert_eq; lia).
    rewrite take_insert_ge by lia. rewrite drop_insert_lt by lia.
    rewrite <- app_assoc. cbn [app].
    by replace (S k + length rest)%nat with (k + S (length rest))%nat by lia.
Qed.

(** A program that fits in memory is copied to addresses 0, 1, ...; the
    cells behind it, and everything else in the machine, stay as they were. *)
Theorem load_from_fits program s :
  (length program <= length (ram s))%nat ->
  load_from program 0 s
  = (Ok tt, set_ram s (program ++ drop (length program) (ram s))).
Proof. intros Hfit. exact (load_from_cells program 0 s Hfit). Qed.

Lemma load_from_fits_witness :
  boot mult_ls8 = (Ok tt, set_ram init (mult_ls8 ++ drop 12 (ram init))).
Proof. apply (load_from_fits mult_ls8 init). vm_compute. lia. Defined.

(** After loading, reading address [i] below the program's length returns
    the program's byte [i]. *)
Theorem load_then_read program i b :
  (length program <= 255)%nat ->
  program !! i = Some b ->
  ram_read (Z.of_nat i) (snd (boot program)) = (Ok b, snd (boot program)).
Proof.
  intros Hfit Hb. unfold boot.
  pose proof (load_from_cells program 0 init Hfit) as Hload.
  change (Z.of_nat 0) with 0 in Hload. rewrite Hload.
  apply ram_read_ok. cbn [snd ram set_ram].
  change (take 0 (ram init)) with (@nil Z). cbn [app].
  pose proof (lookup_lt_Some _ _ _ Hb) as Hi.
  rewrite py_get_nonneg.
  - rewrite Nat2Z.id. by rewrite lookup_app_l.
  - rewrite length_app, length_drop.
    change (length (ram init)) with 255%nat. lia.
Qed.

Lemma load_then_read_witness :
  ram_read 2 (snd (boot mult_ls8)) = (Ok 8, snd (boot mult_ls8)).
Proof.
  apply (load_then_read mult_ls8 2 8); [vm_compute; lia | reflexivity].
Defined.

Lemma load_from_overflow_at program : forall k s,
  (k <= length (ram s) < k + length program)%nat ->
  load_from program (Z.of_nat k) s
  = (Raise IndexError,
     set_ram s (take k (ram s) ++ take (length (ram s) - k) program)).
Proof.
  induction program as [|b rest IH]; intros k s Hk; cbn [length] in Hk; [lia|].
  cbn [load_from].
  destruct (decide (k = length (ram s))) as [->|Hne].
  - rewrite (bind_raise _ _ s IndexError s)
      by (apply ram_write_raise, py_set_high; lia).
    rewrite Nat.sub_diag, take_ge by lia. cbn [take]. rewrite app_nil_r.
    by destruct s.
  - rewrite (bind_ram_write _ _ _ s (<[k := b]> (ram s)))
      by (rewrite py_set_nonneg by lia; by rewrite Nat2Z.id).
    replace (Z.of_nat k + 1) with (Z.of_nat (S k)) by lia.
    rewrite IH by (cbn [ram set_ram]; rewrite length_insert; lia).
    cbn [ram set_ram]. unfold set_ram. cbn [registers pc ir mar mdr fl stdout].
    do 2 f_equal.
    rewrite length_insert.
    rewrite (take_S_r _ k b) by (apply list_lookup_insert_eq; lia).
    rewrite take_insert_ge by lia.
    replace (length (ram s) - k)%nat with (S (length (ram s) - S k)) by lia.
    cbn [take]. by rewrite <- app_assoc.
Qed.

(** A program longer than memory does not fit: the copy loop fills every
    cell, in order, with the program's first bytes and raises [IndexError]
    on the first address past the last cell.  The exception leaves memory
    holding those bytes; nothing else in the machine has changed. *)
Theorem load_from_too_long program s :
  (length (ram s) < length program)%nat ->
  load_from program 0 s
  = (Raise IndexError, set_ram s (take (length (ram s)) program)).
Proof.
  intros H.
  pose proof (load_from_overflow_at program 0 s ltac:(lia)) as Hload.
  change (Z.of_nat 0) with 0 in Hload. rewrite Hload.
  cbn [take app]. by rewrite Nat.sub_0_r.
Qed.

Lemma load_from_too_long_witness :
  boot (replicate 256 1) = (Raise IndexError, set_ram init (replicate 255 1)).
Proof.
  rewrite <- (take_replicate_add 255 1 1). 
  apply (load_from_too_long (replicate 256 1) init). vm_compute. lia.
Defined.

(** ** ALU errors *)

(** Any operation other than ADD and CMP is refused, with nothing changed. *)
Theorem alu_unsupported op a b s :
  op <> "ADD"%string -> op <> "CMP"%string ->
  alu op a b s = (Raise (Exception "Unsupported ALU operation"), s).
Proof.
  intros H1 H2. unfold alu.
  apply String.eqb_neq in H1, H2. by rewrite H1, H2.
Qed.

Lemma alu_unsupported_witness :
  alu "SUB" 0 1 init = (Raise (Exception "Unsupported ALU operation"), init).
Proof. apply alu_unsupported; discriminate. Defined.

(** ADD and CMP subscript the register file with their operands as they
    are: an operand that is no register subscript raises [IndexError]
    before any register or flag is written. *)
Theorem alu_bad_operand op a b s :
  op = "ADD"%string \/ op = "CMP"%string ->
  py_get (registers s) a = None \/ py_get (registers s) b = None ->
  alu op a b s = (Raise IndexError, s).
Proof.
  intros [-> | ->] H; [|by apply alu_cmp_bad_operand].
  unfold alu. change (String.eqb "ADD" "ADD") with true. cbv iota.
  destruct (py_get (registers s) a) as [va|] eqn:Ha.
  - destruct H as [H|H]; [discriminate|].
    rewrite (bind_reg_read a _ s va) by done.
    by rewrite (bind_raise _ _ s IndexError s) by (by apply reg_read_raise).
  - by rewrite (bind_raise _ _ s IndexError s) by (by apply reg_read_raise).
Qed.

Lemma alu_bad_operand_witness :
  alu "ADD" 0 8 init = (Raise IndexError, init).
Proof. apply alu_bad_operand; [by left | by right]. Defined.

(** ** Single instructions in the loop *)

(** HLT ends the run with [SystemExit]; only [ir] has been assigned. *)
Theorem run_hlt s op n :
  py_get (ram s) (pc s) = Some op ->
  Z.land op 0x3F = instructions.HLT ->
  run (S n) s = (Raise SystemExit, set_ir s instructions.HLT).
Proof.
  intros Hop Hk. cbn [run]. apply bind_raise.
  rewrite (step_dispatch s op hlt Hop) by (by rewrite Hk).
  rewrite Hk. by apply bind_raise.
Qed.

Lemma run_hlt_witness :
  run 1 (snd (boot [1])) = (Raise SystemExit, set_ir (snd (boot [1])) instructions.HLT).
Proof. apply (run_hlt (snd (boot [1])) 1 0); reflexivity. Defined.

(** When [pc] is no address of memory the fetch itself raises [IndexError]:
    the run ends with nothing changed, [ir] included. *)
Theorem run_fetch_out_of_range s n :
  length (ram s) = 255%nat ->
  pc s < -255 \/ 255 <= pc s ->
  run (S n) s = (Raise IndexError, s).
Proof.
  intros Hlen Hpc. cbn [run]. apply bind_raise. apply step_fetch_raise.
  apply py_get_None. rewrite Hlen. exact Hpc.
Qed.

Lemma run_fetch_out_of_range_witness :
  run 1 (set_pc init 255) = (Raise IndexError, set_pc init 255).
Proof.
  apply (run_fetch_out_of_range (set_pc init 255) 0 eq_refl). right. cbn. lia.
Defined.

Lemma land_7_range x : 0 <= Z.land x 0x07 < 8.
Proof.
  change (Z.land x 0x07) with (Z.land x (Z.ones 3)). rewrite Z.land_ones by lia.
  apply Z.mod_pos_bound. reflexivity.
Qed.

(** LDI takes its register number modulo 8, so it never fails on the
    register file; the register then holds the immediate byte, the other
    registers are unchanged, and [pc] moves on by one plus the count in the
    top two bits of the instruction byte. *)
Theorem step_ldi s op r v :
  length (registers s) = 8%nat ->
  py_get (ram s) (pc s) = Some op ->
  Z.land op 0x3F = instructions.LDI ->
  py_get (ram s) (pc s + 1) = Some r ->
  py_get (ram s) (pc s + 2) = Some v ->
  exists s',
    step s = (Ok tt, s') /\
    registers s' = <[Z.to_nat (Z.land r 0x07) := v]> (registers s) /\
    py_get (registers s') (Z.land r 0x07) = Some v /\
    pc s' = pc s + Z.shiftr op 6 + 1 /\
    ram s' = ram s /\ fl s' = fl s /\ stdout s' = stdout s.
Proof.
  intros Hlen Hop Hk Hr Hv.
  pose proof (land_7_range r) as Hrange.
  set (s0 := set_ir s (Z.land op 0x3F)).
  set (regs1 := <[Z.to_nat (Z.land r 0x07) := v]> (registers s)).
  assert (py_set (registers s) (Z.land r 0x07) v = Some regs1) as Hset
    by (apply py_set_nonneg; rewrite Hlen; simpl; lia).
  exists (set_pc (set_registers s0 regs1) (pc s + Z.shiftr op 6 + 1)).
  split; [|split; [done|split; [|done]]].
  - rewrite (step_dispatch s op ldi Hop) by (by rewrite Hk).
    rewrite (bind_ok _ _ s0 tt (set_registers s0 regs1)).
    + rewrite (advance_moves (set_registers s0 regs1) op);
        [done| | | |done]; cbn [ir s0 set_registers set_ir]; by rewrite Hk.
    + unfold ldi. rewrite bind_gets, (bind_ram_read _ _ _ v) by done.
      rewrite bind_gets, (bind_ram_read _ _ _ r) by done.
      by apply reg_write_ok.
  - by apply (py_get_set_eq (registers s)).
Qed.

Lemma step_ldi_witness :
  exists s',
    step (snd (boot [130; 15; 9])) = (Ok tt, s') /\
    py_get (registers s') 7 = Some 9 /\ pc s' = 3.
Proof.
  destruct (step_ldi (snd (boot [130; 15; 9])) 130 15 9
              eq_refl eq_refl eq_refl eq_refl eq_refl)
    as (s' & H1 & _ & H2 & H3 & _).
  exists s'. split; [exact H1 | split; [exact H2 | exact H3]].
Defined.

(** PRN writes one line, the decimal form of the register numbered by its
    operand modulo 8, and changes nothing else but [pc] and [ir].  The
    register's value is taken below 10^4300 in absolute value: that is the
    range in which every CPython converts an integer to decimal text (from
    3.11 on, a longer integer makes [print] raise [ValueError]). *)
Theorem step_prn s op r x :
  py_get (ram s) (pc s) = Some op ->
  Z.land op 0x3F = instructions.PRN ->
  py_get (ram s) (pc s + 1) = Some r ->
  py_get (registers s) (Z.land r 0x07) = Some x ->
  Z.abs x < 10 ^ 4300 ->
  step s
  = (Ok tt, set_pc (set_stdout (set_ir s instructions.PRN) (stdout s ++ [py_str x]))
                   (pc s + Z.shiftr op 6 + 1)).
Proof.
  intros Hop Hk Hr Hx _.
  rewrite (step_dispatch s op prn Hop) by (by rewrite Hk). rewrite Hk.
  rewrite (bind_ok _ _ _ tt
             (set_stdout (set_ir s instructions.PRN) (stdout s ++ [py_str x]))).
  - by rewrite (advance_moves _ op).
  - unfold prn.
    by rewrite bind_gets, (bind_ram_read _ _ _ r), (bind_reg_read _ _ _ x).
Qed.

Lemma step_prn_witness :
  stdout (snd (step (snd (boot [71; 7])))) = ["244"%string].
Proof.
  rewrite (step_prn (snd (boot [71; 7])) 71 7 0xF4 eq_refl eq_refl eq_refl eq_refl
             ltac:(vm_compute; reflexivity)).
  reflexivity.
Defined.

(** JMP puts the operand register's value into [pc], and the loop does not
    advance after it. *)
Theorem step_jmp s op r target :
  py_get (ram s) (pc s) = Some op ->
  Z.land op 0x3F = instructions.JMP ->
  py_get (ram s) (pc s + 1) = Some r ->
  py_get (registers s) r = Some target ->
  step s = (Ok tt, set_pc (set_ir s instructions.JMP) target).
Proof.
  intros Hop Hk Hr Ht.
  rewrite (step_dispatch s op jmp Hop) by (by rewrite Hk). rewrite Hk.
  rewrite (bind_ok _ _ _ tt (set_pc (set_ir s instructions.JMP) target))
    by (by apply (jmp_exec _ r)).
  apply advance_skips. right. right. reflexivity.
Qed.

Lemma step_jmp_witness :
  pc (snd (step (snd (boot [84; 7])))) = 0xF4.
Proof.
  rewrite (step_jmp (snd (boot [84; 7])) 84 7 0xF4 eq_refl eq_refl eq_refl eq_refl).
  reflexivity.
Defined.

(** In every state exactly one of JEQ and JNE takes its jump. *)
Theorem jne_taken_iff_not_jeq_taken s : jne_taken s = negb (jeq_taken s).
Proof.
  unfold jne_taken, jeq_taken. rewrite land_1_bit0.
  by destruct (Z.testbit (fl s) 0).
Qed.

(** A conditional jump that is not taken reads no operand and falls through
    to the next instruction. *)
Theorem step_untaken_jump s op :
  py_get (ram s) (pc s) = Some op ->
  (Z.land op 0x3F = instructions.JEQ /\ jeq_taken s = false) \/
  (Z.land op 0x3F = instructions.JNE /\ jne_taken s = false) ->
  step s = (Ok tt, set_pc (set_ir s (Z.land op 0x3F)) (pc s + Z.shiftr op 6 + 1)).
Proof.
  intros Hop [[Hk Hn]|[Hk Hn]].
  - rewrite (step_dispatch s op jeq Hop) by (by rewrite Hk).
    rewrite (bind_ok _ _ _ tt (set_ir s (Z.land op 0x3F))).
    + rewrite (advance_moves (set_ir s (Z.land op 0x3F)) op);
        [done| | | |done]; cbn [ir set_ir]; by rewrite Hk.
    + rewrite jeq_unfold.
      change (jeq_taken (set_ir s (Z.land op 0x3F))) with (jeq_taken s).
      by rewrite Hn.
  - rewrite (step_dispatch s op jne Hop) by (by rewrite Hk).
    rewrite (bind_ok _ _ _ tt (set_ir s (Z.land op 0x3F))).
    + rewrite (advance_moves (set_ir s (Z.land op 0x3F)) op);
        [done| | | |done]; cbn [ir set_ir]; by rewrite Hk.
    + rewrite jne_unfold.
      change (jne_taken (set_ir s (Z.land op 0x3F))) with (jne_taken s).
      by rewrite Hn.
Qed.

Lemma step_untaken_jump_witness :
  pc (snd (step (snd (boot [85; 200])))) = 2.
Proof.
  rewrite (step_untaken_jump (snd (boot [85; 200])) 85 eq_refl).
  - reflexivity.
  - left. split; reflexivity.
Defined.

Lemma step_taken_jeq_witness :
  pc (snd (step (snd (run 2 (snd (boot jeq_ls8)))))) = 11.
Proof.
  rewrite (step_taken_jeq (snd (run 2 (snd (boot jeq_ls8)))) 85 2 9 71
             eq_refl eq_refl eq_refl eq_refl eq_refl eq_refl).
  reflexivity.
Defined.

Lemma step_taken_jne_witness :
  pc (snd (step (snd (run 1 (snd (boot jne_ls8)))))) = 8.
Proof.
  rewrite (step_taken_jne (snd (run 1 (snd (boot jne_ls8)))) 86 2 6 71
             eq_refl eq_refl eq_refl eq_refl eq_refl eq_refl).
  reflexivity.
Defined.

Lemma push_sp_in_range_witness :
  exists sp',
    py_get (registers (snd (push (set_registers init [0; 0; 0; 0; 0; 0; 0; 0])))) 7
    = Some sp' /\ 0 <= sp' <= 255.
Proof.
  exact (push_sp_in_range (set_registers init [0; 0; 0; 0; 0; 0; 0; 0]) 0 eq_refl).
Defined.

(** ** The ends of the stack *)

(** PUSH with SP = 0: the stack pointer wraps to 255, which is one past the
    last memory cell, so the store raises [IndexError].  SP is left at 255
    and nothing is written to memory. *)
Theorem push_at_sp_zero s r :
  length (ram s) = 255%nat ->
  length (registers s) = 8%nat ->
  py_get (registers s) 7 = Some 0 ->
  py_get (ram s) (pc s + 1) = Some r ->
  is_Some (py_get (registers s) r) ->
  push s = (Raise IndexError, set_registers s (<[7%nat := 255]> (registers s))).
Proof.
  intros Hlen Hregs Hsp Hr Hv.
  set (regs1 := <[7%nat := 255]> (registers s)).
  assert (py_set (registers s) 7 (Z.land (0 - 1) 0xFF) = Some regs1) as Hset
    by (apply py_set_nonneg; rewrite Hregs; simpl; lia).
  destruct (py_get_defined_length (registers s) regs1 r) as [v1 Hv1];
    [symmetry; apply length_insert | done |].
  rewrite (push_sp_update s 0 regs1) by done. unfold get_sp.
  rewrite bind_gets, (bind_ram_read _ _ _ r), (bind_reg_read _ _ _ v1) by done.
  rewrite (bind_reg_read 7 _ _ 255) by (by apply (py_get_set_eq (registers s))).
  apply ram_write_raise, py_set_high. cbn [ram set_registers]. rewrite Hlen. simpl; lia.
Qed.

Lemma push_at_sp_zero_witness :
  fst (push (snd (run 1 (snd (boot push_at_zero_ls8))))) = Raise IndexError.
Proof.
  rewrite (push_at_sp_zero (snd (run 1 (snd (boot push_at_zero_ls8)))) 0
             eq_refl eq_refl eq_refl eq_refl).
  - reflexivity.
  - exists 0. reflexivity.
Defined.

(** POP and RET with SP at no memory address (255 after wrapping, or
    anything beyond): the read of the stack cell raises [IndexError] before
    any register, SP or [pc] is changed. *)
Theorem pop_ret_outside_memory s sp :
  length (ram s) = 255%nat ->
  py_get (registers s) 7 = Some sp ->
  sp < -255 \/ 255 <= sp ->
  pop s = (Raise IndexError, s) /\ ret s = (Raise IndexError, s).
Proof.
  intros Hlen Hsp Hout.
  assert (py_get (ram s) sp = None) as Hnone
    by (apply py_get_None; by rewrite Hlen).
  split.
  - unfold pop, get_sp. rewrite (bind_reg_read 7 _ s sp) by done.
    apply bind_raise. by apply ram_read_raise.
  - unfold ret, get_sp. rewrite (bind_reg_read 7 _ s sp) by done.
    apply bind_raise. by apply ram_read_raise.
Qed.

Lemma pop_ret_outside_memory_witness :
  pop (set_registers init [0; 0; 0; 0; 0; 0; 0; 255])
  = (Raise IndexError, set_registers init [0; 0; 0; 0; 0; 0; 0; 255]).
Proof.
  apply (proj1 (pop_ret_outside_memory
                  (set_registers init [0; 0; 0; 0; 0; 0; 0; 255]) 255
                  eq_refl eq_refl ltac:(lia))).
Defined.

(** PUSH a followed by POP b, for general-purpose registers a and b (0 to
    6), SP between 1 and 255 and the stack cell not among the instruction
    bytes: register b receives the value of register a, every other
    register and SP are as before, and the value stays in the cell just
    below the stack pointer. *)
Theorem push_pop_copies s sp a b v :
  length (ram s) = 255%nat ->
  length (registers s) = 8%nat ->
  py_get (registers s) 7 = Some sp ->
  1 <= sp <= 255 ->
  (forall j, pc s <= j <= pc s + 3 -> py_index 255 j <> py_index 255 (sp - 1)) ->
  py_get (ram s) (pc s) = Some 69 ->          (* 01000101 PUSH *)
  py_get (ram s) (pc s + 1) = Some a ->
  py_get (ram s) (pc s + 2) = Some 70 ->      (* 01000110 POP *)
  py_get (ram s) (pc s + 3) = Some b ->
  0 <= a < 7 -> 0 <= b < 7 ->
  py_get (registers s) a = Some v ->
  exists s2,
    run 2 s = (Ok tt, s2) /\
    registers s2 = <[Z.to_nat b := v]> (registers s) /\
    py_get (ram s2) (sp - 1) = Some v /\
    pc s2 = pc s + 4.
Proof.
  intros Hlen Hregs Hsp Hrange Hdisj Hpush Ha Hpop Hb Harange Hbrange Hv.
  assert (Z.land (sp - 1) 0xFF = sp - 1) as Hland by (apply land_0xFF_small; lia).
  set (regs1 := <[7%nat := sp - 1]> (registers s)).
  assert (py_set (registers s) 7 (sp - 1) = Some regs1) as Hregs1
    by (apply py_set_nonneg; rewrite Hregs; simpl; lia).
  assert (length regs1 = 8%nat) as Hlen1 by (unfold regs1; by rewrite length_insert).
  assert (forall i, 0 <= i < 7 -> py_get regs1 i = py_get (registers s) i) as Hlow.
  { intros i Hi. apply (py_get_set_ne _ 7 i (sp - 1)); [done|].
    rewrite Hregs, !py_index_nonneg by (simpl; lia). intros [= E]. lia. }
  set (ram1 := <[Z.to_nat (sp - 1) := v]> (ram s)).
  assert (py_set (ram s) (sp - 1) v = Some ram1) as Hram1
    by (apply py_set_nonneg; rewrite Hlen; simpl; lia).
  assert (forall j, pc s <= j <= pc s + 3 -> py_get ram1 j = py_get (ram s) j) as Hcode.
  { intros j Hj. apply (py_get_set_ne _ (sp - 1) j v); [done|].
    rewrite Hlen. intros E. by apply (Hdisj j). }
  set (sA := set_ram (set_registers (set_ir s (Z.land 69 0x3F)) regs1) ram1).
  set (s1 := set_pc sA (pc s + 2)).
  assert (step s = (Ok tt, s1)) as Hstep1.
  { rewrite (step_dispatch s 69 push Hpush) by done.
    rewrite (bind_ok _ _ _ tt sA).
    - rewrite (advance_moves sA 69); try done.
      + f_equal. unfold s1. cbn [pc sA set_ram set_registers set_ir]. f_equal.
        change (Z.shiftr 69 6) with 1. lia.
      + cbn [ram pc sA set_ram set_registers set_ir]. rewrite Hcode by lia. done.
    - apply (push_exec _ sp regs1 a v); try done; rewrite ?Hland; try done.
      by rewrite Hlow. }
  set (regs2 := <[Z.to_nat b := v]> regs1).
  set (regs3 := <[7%nat := sp]> regs2).
  set (sB := set_registers (set_ir s1 (Z.land 70 0x3F)) regs3).
  assert (py_get (ram s1) (pc s1) = Some 70) as Hpop1
    by (cbn [ram pc s1 sA set_pc set_ram set_registers set_ir];
        rewrite Hcode by lia; done).
  assert (py_set regs1 b v = Some regs2) as Hregs2
    by (apply py_set_nonneg; rewrite Hlen1; simpl; lia).
  assert (step s1 = (Ok tt, set_pc sB (pc s + 4))) as Hstep2.
  { rewrite (step_dispatch s1 70 pop Hpop1) by done.
    rewrite (bind_ok _ _ _ tt sB).
    - rewrite (advance_moves sB 70); try done.
      f_equal. cbn [pc sB s1 sA set_pc set_ram set_registers set_ir]. f_equal.
      change (Z.shiftr 70 6) with 1. lia.
    - apply (pop_exec _ (sp - 1) v b regs2).
      + by apply (py_get_set_eq (registers s)).
      + by apply (py_get_set_eq (ram s)).
      + cbn [ram pc s1 sA set_pc set_ram set_registers set_ir].
        replace (pc s + 2 + 1) with (pc s + 3) by lia. rewrite Hcode by lia. done.
      + done.
      + exists (sp - 1). split.
        * rewrite (py_get_set_ne regs1 b 7 v regs2 Hregs2).
          -- by apply (py_get_set_eq (registers s)).
          -- rewrite Hlen1, !py_index_nonneg by (simpl; lia). intros [= E]. lia.
        * replace (sp - 1 + 1) with sp by lia. apply py_set_nonneg.
          unfold regs2. rewrite length_insert, Hlen1. simpl; lia. }
  exists (set_pc sB (pc s + 4)).
  split; [|split; [|split; [|done]]].
  - change (run 2 s) with (bind step (fun _ => bind step (fun _ => pure tt)) s).
    rewrite (bind_ok _ _ _ _ _ Hstep1). by rewrite (bind_ok _ _ _ _ _ Hstep2).
  - cbn [registers sB set_pc set_registers]. unfold regs3, regs2, regs1.
    rewrite list_insert_insert_ne by lia.
    rewrite list_insert_insert_eq.
    f_equal. apply list_insert_id.
    rewrite py_get_nonneg in Hsp by (rewrite Hregs; simpl; lia). exact Hsp.
  - cbn [ram sB s1 sA set_pc set_ram set_registers set_ir].
    by apply (py_get_set_eq (ram s)).
Qed.

(** LDI R0,5; PUSH R0; POP R1; PRN R1; HLT, after the LDI has run. *)
Definition stack_ls8 : list Z :=
  [ 130; 0; 5;      (* 10000010 LDI R0,5 *)
    69; 0;          (* 01000101 PUSH R0 *)
    70; 1;          (* 01000110 POP R1 *)
    71; 1;          (* 01000111 PRN R1 *)
    1 ].            (* 00000001 HLT *)

Definition stack_state : CPU :=
  Eval vm_compute in snd (run 1 (snd (boot stack_ls8))).

Lemma push_pop_copies_witness :
  exists s2,
    run 2 stack_state = (Ok tt, s2) /\
    registers s2 = <[1%nat := 5]> (registers stack_state).
Proof.
  destruct (push_pop_copies stack_state 0xF4 0 1 5) as (s2 & H1 & H2 & _);
    try reflexivity; try lia.
  - intros j Hj. change (pc stack_state) with 3 in Hj.
    rewrite (py_index_nonneg 255 j), (py_index_nonneg 255 (0xF4 - 1)) by lia.
    intros [= E]. lia.
  - exists s2. split; [exact H1 | exact H2].
Defined.
